(** * OtaUpdater: the firmware self-update task of bernd-box

    A shallow embedding of [ota_updater.cpp] (namespace [bernd_box]) and the
    properties of its update state machine.

    The task talks to four collaborators whose code lives outside the
    translation unit: the ArduinoJson document it receives, the [HTTPClient]
    [client_], the flashing driver [Update] and the [Server] obtained through
    [services_].  Every call that has an effect on a collaborator is recorded
    as an [Event] in the order in which the C++ code performs it; every value
    a collaborator hands back (connection status, HTTP code, bytes read,
    flashing progress, ...) is an input of the embedded function. *)

From Stdlib Require Import ZArith List String Ascii Bool Lia.
From Stdlib Require Import Floats.SpecFloat DecimalString Sorted.
From Stdlib Require FMapList FMapFacts OrderedTypeEx.
Import ListNotations.
Set Warnings "-register-all".
Open Scope string_scope.
Open Scope list_scope.
Open Scope Z_scope.

(** ** ArduinoJson variants *)

Module Json.

(** The value held by a [JsonVariantConst].  [JNull] is also what
    [operator[]] yields for an absent key. *)
Inductive JsonVariant : Type :=
| JNull
| JBool (b : bool)
| JInt (z : Z)
| JFloat (f : spec_float)
| JStr (s : string)
| JArray (items : list JsonVariant)
| JObject (members : list (string * JsonVariant)).

Fixpoint lookup (key : string) (members : list (string * JsonVariant))
  : JsonVariant :=
  match members with
  | [] => JNull
  | (k, v) :: rest => if String.eqb k key then v else lookup key rest
  end.

(** [variant[key]] *)
Definition member (key : string) (v : JsonVariant) : JsonVariant :=
  match v with
  | JObject members => lookup key members
  | _ => JNull
  end.

(** Conversion of a variant to [bool], as in [if (!variant)]. *)
Definition as_bool (v : JsonVariant) : bool :=
  match v with
  | JNull => false
  | JBool b => b
  | JInt z => negb (z =? 0)
  | JFloat f => negb (SFeqb f (S754_zero false))
  | _ => true
  end.

(** [variant.as<const char*>()]: [None] stands for [nullptr]. *)
Definition as_cstr (v : JsonVariant) : option string :=
  match v with
  | JStr s => Some s
  | _ => None
  end.

(** [size_t] is 32 bits wide on the ESP32. *)
Definition SIZE_MAX : Z := 4294967295.

(** [variant.is<size_t>()] *)
Definition is_size_t (v : JsonVariant) : bool :=
  match v with
  | JInt z => (0 <=? z) && (z <=? SIZE_MAX)
  | _ => false
  end.

(** [variant.as<size_t>()] *)
Definition as_size_t (v : JsonVariant) : Z :=
  match v with
  | JInt z => if (0 <=? z) && (z <=? SIZE_MAX) then z else 0
  | _ => 0
  end.

(** [variant.is<bool>()] *)
Definition is_bool (v : JsonVariant) : bool :=
  match v with
  | JBool _ => true
  | _ => false
  end.

End Json.
Import Json.

(** ** Single-precision arithmetic of the progress computation *)

Module Float32.

Definition prec : Z := 24.
Definition emax : Z := 128.

(** Conversion of an integer to [float] (round to nearest even). *)
Definition of_Z (n : Z) : spec_float := binary_normalize prec emax n 0 false.

Definition div (x y : spec_float) : spec_float := SFdiv prec emax x y.
Definition mul (x y : spec_float) : spec_float := SFmul prec emax x y.

Definition INT_MAX : Z := 2147483647.
Definition INT_MIN : Z := -2147483648.

(** Conversion of a [float] to [int]: the value is truncated toward zero;
    the conversion is undefined ([None]) for NaN, the infinities and
    values that do not fit an [int]. *)
Definition to_int (f : spec_float) : option Z :=
  match f with
  | S754_zero _ => Some 0
  | S754_finite s m e =>
      let magnitude :=
        if 0 <=? e then Z.pos m * 2 ^ e else Z.pos m / 2 ^ (- e) in
      let v := if s then - magnitude else magnitude in
      if (INT_MIN <=? v) && (v <=? INT_MAX) then Some v else None
  | _ => None
  end.

End Float32.

(** ** Collaborators *)

(** What the task uses of a [Server]: the bundle of root certificates. *)
Record Server : Type := mkServer { getRootCas : string }.

(** [ServiceGetters]: [getServer()] returns a null pointer when no server is
    registered. *)
Record ServiceGetters : Type := mkServices { getServer : option Server }.

(** Answers of [client_] during one [handleCallback]. *)
Record HttpReply : Type := mkHttpReply {
  begin_ok : bool;     (* result of [client_.begin(...)] *)
  get_code : Z         (* result of [client_.GET()] *)
}.

(** The [WiFiClient] behind [client_.getStreamPtr()]. *)
Record Stream : Type := mkStream {
  available : Z;                  (* [stream->available()] *)
  incoming : list Byte.byte       (* bytes [readBytes] can deliver *)
}.

(** Answers of the collaborators during one [TaskCallback]. *)
Record TickEnv : Type := mkTickEnv {
  stream_ptr : option Stream;     (* [client_.getStreamPtr()], [None] = nullptr *)
  progress : Z;                   (* [Update.progress()] after the write *)
  is_finished : bool;             (* [Update.isFinished()] *)
  end_success : bool;             (* [Update.end()] *)
  error_string : string           (* [Update.errorString()] *)
}.

(** Calls with an effect on a collaborator, in program order. *)
Inductive Event : Type :=
| EvSendResults (doc : JsonVariant)              (* [server->sendResults(doc)] *)
| EvSerialPrintln (line : string)                (* [Serial.println(line)] *)
| EvHttpBegin (url : string) (ca : option string) (* [client_.begin(url[, ca])] *)
| EvHttpGET                                      (* [client_.GET()] *)
| EvHttpEnd                                      (* [client_.end()] *)
| EvReadBytes (data : list Byte.byte)            (* [stream->readBytes(...)] *)
| EvUpdateSetMD5 (md5 : string)                  (* [Update.setMD5(md5)] *)
| EvUpdateBegin (size : Z)                       (* [Update.begin(size)] *)
| EvUpdateWrite (data : list Byte.byte)          (* [Update.write(buf, n)] *)
| EvUpdateEnd                                    (* [Update.end()] *)
| EvDelay (ms : Z)                               (* [::delay(ms)] *)
| EvRestart.                                     (* [esp_restart()] *)

(** ** The task object *)

Record OtaUpdater : Type := mkOtaUpdater {
  services_ : ServiceGetters;
  request_id_ : string;
  image_size_ : Z;
  restart_ : bool;
  is_updating_ : bool;
  last_percent_update : Z;
  buffer_ : list Byte.byte;
  (* scheduler side of the task, inherited from [BaseTask] *)
  task_enabled : bool;
  task_iterations : Z;
  task_interval : Z
}.

Definition set_request_id (v : string) (o : OtaUpdater) : OtaUpdater :=
  mkOtaUpdater (services_ o) v (image_size_ o) (restart_ o) (is_updating_ o)
    (last_percent_update o) (buffer_ o)
    (task_enabled o) (task_iterations o) (task_interval o).

Definition set_image_size (v : Z) (o : OtaUpdater) : OtaUpdater :=
  mkOtaUpdater (services_ o) (request_id_ o) v (restart_ o) (is_updating_ o)
    (last_percent_update o) (buffer_ o)
    (task_enabled o) (task_iterations o) (task_interval o).

Definition set_restart (v : bool) (o : OtaUpdater) : OtaUpdater :=
  mkOtaUpdater (services_ o) (request_id_ o) (image_size_ o) v (is_updating_ o)
    (last_percent_update o) (buffer_ o)
    (task_enabled o) (task_iterations o) (task_interval o).

Definition set_is_updating (v : bool) (o : OtaUpdater) : OtaUpdater :=
  mkOtaUpdater (services_ o) (request_id_ o) (image_size_ o) (restart_ o) v
    (last_percent_update o) (buffer_ o)
    (task_enabled o) (task_iterations o) (task_interval o).

Definition set_last_percent (v : Z) (o : OtaUpdater) : OtaUpdater :=
  mkOtaUpdater (services_ o) (request_id_ o) (image_size_ o) (restart_ o)
    (is_updating_ o) v (buffer_ o)
    (task_enabled o) (task_iterations o) (task_interval o).

Definition set_buffer (v : list Byte.byte) (o : OtaUpdater) : OtaUpdater :=
  mkOtaUpdater (services_ o) (request_id_ o) (image_size_ o) (restart_ o)
    (is_updating_ o) (last_percent_update o) v
    (task_enabled o) (task_iterations o) (task_interval o).

Definition set_enabled (v : bool) (o : OtaUpdater) : OtaUpdater :=
  mkOtaUpdater (services_ o) (request_id_ o) (image_size_ o) (restart_ o)
    (is_updating_ o) (last_percent_update o) (buffer_ o)
    v (task_iterations o) (task_interval o).

Definition set_iterations (v : Z) (o : OtaUpdater) : OtaUpdater :=
  mkOtaUpdater (services_ o) (request_id_ o) (image_size_ o) (restart_ o)
    (is_updating_ o) (last_percent_update o) (buffer_ o)
    (task_enabled o) v (task_interval o).

Definition set_interval (v : Z) (o : OtaUpdater) : OtaUpdater :=
  mkOtaUpdater (services_ o) (request_id_ o) (image_size_ o) (restart_ o)
    (is_updating_ o) (last_percent_update o) (buffer_ o)
    (task_enabled o) (task_iterations o) v.

(** ** Execution monad

    A member function either returns ([Done]) with the task object and
    the events it caused, never returns because [esp_restart()] reset the
    chip ([Restarted], with the object as it was at that instant), or runs
    into undefined behaviour ([Undefined]). *)

Inductive Result (A : Type) : Type :=
| Done (a : A) (o : OtaUpdater) (t : list Event)
| Restarted (o : OtaUpdater) (t : list Event)
| Undefined (t : list Event).
Arguments Done {A} a o t.
Arguments Restarted {A} o t.
Arguments Undefined {A} t.

Definition M (A : Type) : Type := OtaUpdater -> Result A.

Definition ret {A} (a : A) : M A := fun o => Done a o [].

(** [after t r]: the outcome [r], reached after the events [t]. *)
Definition after {A} (t : list Event) (r : Result A) : Result A :=
  match r with
  | Done a o t' => Done a o (t ++ t')
  | Restarted o t' => Restarted o (t ++ t')
  | Undefined t' => Undefined (t ++ t')
  end.

Definition bind {A B} (m : M A) (k : A -> M B) : M B :=
  fun o =>
    match m o with
    | Done a o' t => after t (k a o')
    | Restarted o' t => Restarted o' t
    | Undefined t => Undefined t
    end.

Declare Scope ota_scope.
Delimit Scope ota_scope with ota.
Notation "x <- m ;; k" := (bind m (fun x => k))
  (at level 61, m at next level, right associativity) : ota_scope.
Notation "m ;; k" := (bind m (fun _ => k))
  (at level 61, right associativity) : ota_scope.
Open Scope ota_scope.

Definition get : M OtaUpdater := fun o => Done o o [].
Definition modify (f : OtaUpdater -> OtaUpdater) : M unit :=
  fun o => Done tt (f o) [].
Definition emit (e : Event) : M unit := fun o => Done tt o [e].
Definition undefined {A} : M A := fun _ => Undefined [].

(** [esp_restart()] does not return. *)
Definition esp_restart {A} : M A := fun o => Restarted o [EvRestart].

(** The events of an outcome. *)
Definition trace {A} (r : Result A) : list Event :=
  match r with
  | Done _ _ t => t
  | Restarted _ t => t
  | Undefined t => t
  end.

(** The task object a member function leaves behind when it returns. *)
Definition final {A} (r : Result A) : option OtaUpdater :=
  match r with
  | Done _ o _ => Some o
  | _ => None
  end.

(** The documents that reached the result channel. *)
Fixpoint results_of (t : list Event) : list JsonVariant :=
  match t with
  | [] => []
  | EvSendResults doc :: rest => doc :: results_of rest
  | _ :: rest => results_of rest
  end.

(** ** Constants of [ota_updater.cpp] *)

Definition update_command_key_ : string := "update".
Definition url_key_ : string := "url".
Definition image_size_key_ : string := "size".
Definition md5_hash_key_ : string := "md5".
Definition restart_key_ : string := "restart".

Definition status_key_ : string := "status".
Definition status_start_ : string := "start".
Definition status_updating_ : string := "updating".
Definition status_finish_ : string := "finish".
Definition status_fail_ : string := "fail".
Definition detail_key_ : string := "detail".
Definition failed_to_connect_error_ : string := "Failed to connect".
Definition connection_lost_error_ : string := "Connection lost".
Definition update_in_progress_error_ : string := "OTA update already running".
Definition http_code_error_ : string := "HTTP code: ".

(** [OtaUpdater::type()] *)
Definition type : string := "OtaUpdater".

(** [HTTP_CODE_OK] of the HTTP client library. *)
Definition HTTP_CODE_OK : Z := 200.

(** Modelled from the spec: [Server::request_id_key_], [Server::type_key_]
    and [Server::result_type_] are declared in the absent [server.h]; the
    outbound result schema names them "requestId", "type" and "result". *)
Definition request_id_key_ : string := "requestId".
Definition type_key_ : string := "type".
Definition result_type_ : string := "result".

(** The enumerators of [ErrorStore::KeyType] that the task uses. *)
Inductive KeyType : Type := kString | kBool.

(** [String::isEmpty()] *)
Definition isEmpty (s : string) : bool :=
  match s with
  | EmptyString => true
  | String _ _ => false
  end.

(** Assignment of a [const char*] to a [String]: a null pointer leaves the
    [String] empty. *)
Definition String_of_cstr (p : option string) : string :=
  match p with
  | Some s => s
  | None => ""
  end.

(** [String += int] and [String + int]: the decimal digits, with a sign. *)
Definition String_of_int (z : Z) : string := NilZero.string_of_int (Z.to_int z).

(** The document built by [sendResult].  [request_id] is the parameter
    ([None] = nullptr), [stored] the member [request_id_]. *)
Definition result_doc (request_id : option string) (stored : string)
    (status detail : string) : JsonVariant :=
  JObject
    ([(type_key_, JStr result_type_)]
     ++ match request_id with
        | Some r => [(request_id_key_, JStr r)]
        | None =>
            if isEmpty stored then [] else [(request_id_key_, JStr stored)]
        end
     ++ [(update_command_key_,
          JObject ([(status_key_, JStr status)]
                   ++ (if isEmpty detail then []
                       else [(detail_key_, JStr detail)])))]).

(** [std::vector<uint8_t>::resize(n)]: the first [n] elements are kept, new
    elements are zero. *)
Definition vector_resize (n : nat) (v : list Byte.byte) : list Byte.byte :=
  firstn n (v ++ repeat Byte.x00 n).
Arguments vector_resize : simpl never.

Section Task.

(** Helpers of the repository that are declared outside the translation unit:
    [ErrorStore::genMissingProperty(key, type)],
    [ErrorResult(who, detail).toString()] and the text
    [ServiceGetters::server_nullptr_error_]. *)
Variable genMissingProperty : string -> KeyType -> string.
Variable ErrorResult_toString : string -> string -> string.
Variable server_nullptr_error_ : string.

(** [OtaUpdater::sendResult(status, detail, request_id)] *)
Definition sendResult (status detail : string) (request_id : option string)
  : M unit :=
  o <- get ;;
  match getServer (services_ o) with
  | None =>
      emit (EvSerialPrintln (ErrorResult_toString type server_nullptr_error_))
  | Some _ =>
      emit (EvSendResults (result_doc request_id (request_id_ o) status detail))
  end.

(** [OtaUpdater::OnTaskEnable()] *)
Definition OnTaskEnable : M bool :=
  modify (fun o => set_buffer (vector_resize 4096 (buffer_ o)) o) ;;
  modify (set_is_updating true) ;;
  ret true.

(** [OtaUpdater::OnTaskDisable()] *)
Definition OnTaskDisable : M unit :=
  o <- get ;;
  (if restart_ o then emit (EvDelay 1500) ;; esp_restart else ret tt) ;;
  modify (set_buffer []) ;;
  modify (set_request_id "") ;;
  modify (set_last_percent (-1)) ;;
  modify (set_is_updating false).

(** Modelled from the spec: [BaseTask::enable()], [BaseTask::disable()] and
    [BaseTask::Callback()] belong to the absent [base_task.cpp].  Arming a
    session registers the periodic tick and runs [OnTaskEnable]; the tick is
    deregistered and teardown ([OnTaskDisable]) follows when the task
    disables itself or when [TaskCallback] returns [false]. *)
Definition enable : M unit :=
  modify (set_enabled true) ;;
  _ <- OnTaskEnable ;;
  ret tt.

Definition disable : M unit :=
  modify (set_enabled false) ;;
  OnTaskDisable.

(** The [if (strcmp(url_str, "https") == 0) ... else ...] block of
    [handleCallback]: [Some connected], or [None] where the block returns
    from [handleCallback]. *)
Definition open_connection (http : HttpReply) (url_str : string)
  : M (option bool) :=
  if String.eqb url_str "https" then
    o <- get ;;
    match getServer (services_ o) with
    | None =>
        emit (EvSerialPrintln
                (ErrorResult_toString type server_nullptr_error_)) ;;
        ret None
    | Some server =>
        emit (EvHttpBegin url_str (Some (getRootCas server))) ;;
        ret (Some (begin_ok http))
    end
  else
    emit (EvHttpBegin url_str None) ;;
    ret (Some (begin_ok http)).

(** [OtaUpdater::handleCallback(message)] *)
Definition handleCallback (http : HttpReply) (message : JsonVariant) : M unit :=
  let update_command := member update_command_key_ message in
  if negb (as_bool update_command) then ret tt else
  let request_id := as_cstr (member request_id_key_ message) in
  o <- get ;;
  if is_updating_ o then
    sendResult status_fail_ update_in_progress_error_ request_id
  else
  modify (set_request_id (String_of_cstr request_id)) ;;
  match as_cstr (member url_key_ update_command) with
  | None =>
      sendResult status_fail_ (genMissingProperty url_key_ kString) None
  | Some url_str =>
  let image_size := member image_size_key_ update_command in
  if negb (is_size_t image_size) then
    sendResult status_fail_ (genMissingProperty image_size_key_ kString) None
  else
  modify (set_image_size (as_size_t image_size)) ;;
  match as_cstr (member md5_hash_key_ update_command) with
  | None =>
      sendResult status_fail_ (genMissingProperty md5_hash_key_ kString) None
  | Some md5_hash =>
  let restart := member restart_key_ update_command in
  if negb (is_bool restart) then
    sendResult status_fail_ (genMissingProperty restart_key_ kBool) None
  else
  modify (set_restart (as_bool restart)) ;;
  connection <- open_connection http url_str ;;
  match connection with
  | None => ret tt
  | Some connected =>
  if negb connected then
    sendResult status_fail_ failed_to_connect_error_ None
  else
  emit EvHttpGET ;;
  let status_code := get_code http in
  if negb (status_code =? HTTP_CODE_OK) then
    sendResult status_fail_
      (ErrorResult_toString type (http_code_error_ ++ String_of_int status_code))
      None
  else
  emit (EvUpdateSetMD5 md5_hash) ;;
  o <- get ;;
  emit (EvUpdateBegin (image_size_ o)) ;;
  sendResult status_start_ "" None ;;
  modify (set_iterations (-1)) ;;
  modify (set_interval 50) ;;
  enable
  end end end.

(** [float(Update.progress()) / float(image_size_) * 100] converted to
    [int]. *)
Definition percent_of (written size : Z) : option Z :=
  Float32.to_int
    (Float32.mul (Float32.div (Float32.of_Z written) (Float32.of_Z size))
                 (Float32.of_Z 100)).

(** The [if (bytes_read) { ... }] block of [TaskCallback]. *)
Definition report_progress (env : TickEnv) : M unit :=
  o <- get ;;
  match percent_of (progress env) (image_size_ o) with
  | None => undefined
  | Some percent =>
      let last := last_percent_update o in
      if last <? 0 then
        modify (set_last_percent percent) ;;
        sendResult status_updating_
          ("{done:" ++ String_of_int percent ++ "%}") None
      else if Float32.INT_MAX <? last + 10 then undefined
      else if last + 10 <=? percent then
        modify (set_last_percent percent) ;;
        sendResult status_updating_
          ("{done:" ++ String_of_int percent ++ "%}") None
      else ret tt
  end.

(** The [if (Update.isFinished()) { ... }] block of [TaskCallback]. *)
Definition finish_update (env : TickEnv) : M unit :=
  if is_finished env then
    emit EvHttpEnd ;;
    emit EvUpdateEnd ;;
    (if end_success env then
       sendResult status_finish_ "" None
     else
       sendResult status_fail_ (error_string env) None ;;
       modify (set_restart false)) ;;
    disable
  else ret tt.

(** The read and the write of one tick: [readBytes] fills the front of
    [buffer_] with at most [buffer_.size()] bytes, which are handed to
    [Update.write].  Returns [bytes_read]. *)
Definition read_and_write (stream : Stream) : M Z :=
  o <- get ;;
  let data := firstn (List.length (buffer_ o)) (incoming stream) in
  emit (EvReadBytes data) ;;
  modify (set_buffer (data ++ skipn (List.length data) (buffer_ o))) ;;
  emit (EvUpdateWrite data) ;;
  ret (Z.of_nat (List.length data)).

(** The part of the [if (stream->available())] block that precedes the
    completion check. *)
Definition write_chunk (env : TickEnv) (stream : Stream) : M unit :=
  bytes_read <- read_and_write stream ;;
  if negb (bytes_read =? 0) then report_progress env else ret tt.

(** [OtaUpdater::TaskCallback()] *)
Definition TaskCallback (env : TickEnv) : M bool :=
  match stream_ptr env with
  | None =>
      sendResult status_fail_ connection_lost_error_ None ;;
      ret false
  | Some stream =>
      (if negb (available stream =? 0) then
         write_chunk env stream ;;
         finish_update env
       else ret tt) ;;
      ret true
  end.

(** Modelled from the spec: [BaseTask::Callback()], see [enable]. *)
Definition Callback (env : TickEnv) : M unit :=
  continue <- TaskCallback env ;;
  if continue then ret tt else disable.

(** ** The device as seen by the task

    Modelled from the spec: the scheduler and the messaging transport are
    collaborators outside the translation unit.  Commands arrive from the
    transport at any time; the cooperative scheduler runs the tick of the
    task only while the task is enabled. *)

Inductive Inbound : Type :=
| Command (http : HttpReply) (message : JsonVariant)
| Tick (env : TickEnv).

Definition step (i : Inbound) : M unit :=
  match i with
  | Command http message => handleCallback http message
  | Tick env =>
      o <- get ;;
      if task_enabled o then Callback env else ret tt
  end.

Fixpoint run (inputs : list Inbound) : M unit :=
  match inputs with
  | [] => ret tt
  | i :: rest => step i ;; run rest
  end.

End Task.

(** Modelled from the spec: the member initialisers are in the absent
    [ota_updater.h]; a task that has not run a session is idle, holds no
    buffer and has reported no percentage (sentinel -1). *)
Definition idle (services : ServiceGetters) : OtaUpdater :=
  mkOtaUpdater services "" 0 false false (-1) [] false 0 0.

(** ** Vocabulary of the statements *)

Section Vocabulary.

Variable ErrorResult_toString : string -> string -> string.
Variable server_nullptr_error_ : string.

(** The events of one call [sendResult(status, detail, request_id)] made on
    the object [o]: the document handed to the server or, without a server,
    the diagnostic line on the serial console. *)
Definition emission (o : OtaUpdater) (status detail : string)
    (request_id : option string) : list Event :=
  trace (sendResult ErrorResult_toString server_nullptr_error_
           status detail request_id o).

End Vocabulary.

(** The four resets at the end of [OnTaskDisable]. *)
Definition torn_down (o : OtaUpdater) : OtaUpdater :=
  set_is_updating false
    (set_last_percent (-1) (set_request_id "" (set_buffer [] o))).

(** The members written by a command that passes validation. *)
Definition accepted (request_id : option string) (size : Z) (restart : bool)
    (o : OtaUpdater) : OtaUpdater :=
  set_restart restart
    (set_image_size size (set_request_id (String_of_cstr request_id) o)).

(** The object after [enable()] armed the session. *)
Definition armed (o : OtaUpdater) : OtaUpdater :=
  set_is_updating true
    (set_buffer (vector_resize 4096 (buffer_ o))
       (set_enabled true (set_interval 50 (set_iterations (-1) o)))).

(** The discipline of the flashing driver: [setMD5] opens a session,
    [begin] is only legal right after the hash is known, [write] only after
    [begin]; [end] closes the session.  [None] records a violation. *)
Inductive FlashPhase : Type := Closed | HashKnown | Begun.

Definition flash_step (p : option FlashPhase) (e : Event) : option FlashPhase :=
  match p with
  | None => None
  | Some ph =>
      match e with
      | EvUpdateSetMD5 _ => Some HashKnown
      | EvUpdateBegin _ =>
          match ph with
          | HashKnown => Some Begun
          | _ => None
          end
      | EvUpdateWrite _ =>
          match ph with
          | Begun => Some Begun
          | _ => None
          end
      | EvUpdateEnd => Some Closed
      | _ => Some ph
      end
  end.

Definition flash_run (p : option FlashPhase) (t : list Event)
  : option FlashPhase :=
  fold_left flash_step t p.

(** Every [Update.begin] follows an [Update.setMD5] and every
    [Update.write] follows both. *)
Definition hash_then_begin_then_write (t : list Event) : Prop :=
  flash_run (Some Closed) t <> None.

(** What the runs preserve: the driver's discipline is unbroken and an
    enabled task has its write session begun. *)
Definition in_step (o : OtaUpdater) (p : option FlashPhase) : Prop :=
  exists ph, p = Some ph /\ (task_enabled o = true -> ph = Begun).

(** [percent] as the specification words it: the floor of
    [bytes_written / image_size * 100]. *)
Definition percent_floor (written size : Z) : Z := written * 100 / size.

(** The bytes one [readBytes] call moves into the buffer. *)
Definition bytes_of (stream : Stream) (o : OtaUpdater) : list Byte.byte :=
  firstn (List.length (buffer_ o)) (incoming stream).

(** The object after those bytes overwrote the front of the buffer. *)
Definition filled (stream : Stream) (o : OtaUpdater) : OtaUpdater :=
  set_buffer (bytes_of stream o
              ++ skipn (List.length (bytes_of stream o)) (buffer_ o)) o.

(** The report decision, spelled out on the members it reads. *)
Definition reports (last percent : Z) : bool :=
  (last <? 0) || (last + 10 <=? percent).

(** A command message that carries a complete, well-typed update
    directive. *)
Definition carries (message : JsonVariant) (url : string) (size : Z)
    (md5 : string) (restart : bool) : Prop :=
  let update_command := member update_command_key_ message in
  as_bool update_command = true
  /\ member url_key_ update_command = JStr url
  /\ member image_size_key_ update_command = JInt size
  /\ 0 <= size <= SIZE_MAX
  /\ member md5_hash_key_ update_command = JStr md5
  /\ member restart_key_ update_command = JBool restart.

(** The request id of a command message ([None] when it has none). *)
Definition request_id_of (message : JsonVariant) : option string :=
  as_cstr (member request_id_key_ message).

(** The first check of [handleCallback] that an update directive fails,
    with the key and the key type handed to [genMissingProperty]. *)
Definition first_missing (update_command : JsonVariant)
  : option (string * KeyType) :=
  match as_cstr (member url_key_ update_command) with
  | None => Some (url_key_, kString)
  | Some _ =>
      if negb (is_size_t (member image_size_key_ update_command)) then
        Some (image_size_key_, kString)
      else
        match as_cstr (member md5_hash_key_ update_command) with
        | None => Some (md5_hash_key_, kString)
        | Some _ =>
            if negb (is_bool (member restart_key_ update_command)) then
              Some (restart_key_, kBool)
            else None
        end
  end.

(** The members a rejected directive has already written: the request id,
    and the image size once the url and the size passed their checks. *)
Definition rejected (message : JsonVariant) (o : OtaUpdater) : OtaUpdater :=
  let update_command := member update_command_key_ message in
  let o' := set_request_id (String_of_cstr (request_id_of message)) o in
  match as_cstr (member url_key_ update_command) with
  | None => o'
  | Some _ =>
      if is_size_t (member image_size_key_ update_command) then
        set_image_size (as_size_t (member image_size_key_ update_command)) o'
      else o'
  end.

(** ** Shapes of the outcomes

    The outcomes [handleCallback] and a scheduled tick can have, case by
    case, with the condition under which each arises. *)

Section Shapes.

Variable genMissingProperty : string -> KeyType -> string.
Variable ErrorResult_toString : string -> string -> string.
Variable server_nullptr_error_ : string.

Local Abbreviation emitted :=
  (emission ErrorResult_toString server_nullptr_error_).

Inductive handled (http : HttpReply) (message : JsonVariant)
    (o : OtaUpdater) : Result unit -> Prop :=
| handled_irrelevant :
    as_bool (member update_command_key_ message) = false ->
    handled http message o (Done tt o [])
| handled_busy :
    as_bool (member update_command_key_ message) = true ->
    is_updating_ o = true ->
    handled http message o
      (Done tt o
         (emitted o status_fail_ update_in_progress_error_
            (request_id_of message)))
| handled_rejected key kind :
    as_bool (member update_command_key_ message) = true ->
    is_updating_ o = false ->
    first_missing (member update_command_key_ message) = Some (key, kind) ->
    handled http message o
      (Done tt (rejected message o)
         (emitted (set_request_id (String_of_cstr (request_id_of message)) o)
            status_fail_ (genMissingProperty key kind) None))
| handled_no_server url size md5 restart :
    carries message url size md5 restart ->
    is_updating_ o = false ->
    url = "https" ->
    getServer (services_ o) = None ->
    handled http message o
      (Done tt (accepted (request_id_of message) size restart o)
         [EvSerialPrintln (ErrorResult_toString type server_nullptr_error_)])
| handled_refused url size md5 restart ca :
    carries message url size md5 restart ->
    is_updating_ o = false ->
    begin_ok http = false ->
    handled http message o
      (Done tt (accepted (request_id_of message) size restart o)
         ([EvHttpBegin url ca]
          ++ emitted (accepted (request_id_of message) size restart o)
               status_fail_ failed_to_connect_error_ None))
| handled_bad_code url size md5 restart ca :
    carries message url size md5 restart ->
    is_updating_ o = false ->
    begin_ok http = true ->
    get_code http <> HTTP_CODE_OK ->
    handled http message o
      (Done tt (accepted (request_id_of message) size restart o)
         ([EvHttpBegin url ca; EvHttpGET]
          ++ emitted (accepted (request_id_of message) size restart o)
               status_fail_
               (ErrorResult_toString type
                  (http_code_error_ ++ String_of_int (get_code http)))
               None))
| handled_armed url size md5 restart ca :
    carries message url size md5 restart ->
    is_updating_ o = false ->
    begin_ok http = true ->
    get_code http = HTTP_CODE_OK ->
    handled http message o
      (Done tt (armed (accepted (request_id_of message) size restart o))
         ([EvHttpBegin url ca; EvHttpGET;
           EvUpdateSetMD5 md5; EvUpdateBegin size]
          ++ emitted (accepted (request_id_of message) size restart o)
               status_start_ "" None)).

(** The read, the write and the progress report of one tick. *)
Inductive chunked (env : TickEnv) (stream : Stream) (o : OtaUpdater)
  : Result unit -> Prop :=
| chunked_empty :
    bytes_of stream o = [] ->
    chunked env stream o
      (Done tt (filled stream o) [EvReadBytes []; EvUpdateWrite []])
| chunked_undefined :
    bytes_of stream o <> [] ->
    percent_of (progress env) (image_size_ o) = None
    \/ (0 <= last_percent_update o
        /\ Float32.INT_MAX < last_percent_update o + 10) ->
    chunked env stream o
      (Undefined [EvReadBytes (bytes_of stream o);
                  EvUpdateWrite (bytes_of stream o)])
| chunked_silent percent :
    bytes_of stream o <> [] ->
    percent_of (progress env) (image_size_ o) = Some percent ->
    reports (last_percent_update o) percent = false ->
    chunked env stream o
      (Done tt (filled stream o)
         [EvReadBytes (bytes_of stream o); EvUpdateWrite (bytes_of stream o)])
| chunked_report percent :
    bytes_of stream o <> [] ->
    percent_of (progress env) (image_size_ o) = Some percent ->
    reports (last_percent_update o) percent = true ->
    chunked env stream o
      (Done tt (set_last_percent percent (filled stream o))
         ([EvReadBytes (bytes_of stream o); EvUpdateWrite (bytes_of stream o)]
          ++ emitted o status_updating_
               ("{done:" ++ String_of_int percent ++ "%}") None)).

(** One scheduled tick of an enabled task. *)
Inductive ticked (env : TickEnv) (o : OtaUpdater) : Result unit -> Prop :=
| ticked_lost_restart :
    stream_ptr env = None ->
    restart_ o = true ->
    ticked env o
      (Restarted (set_enabled false o)
         (emitted o status_fail_ connection_lost_error_ None
          ++ [EvDelay 1500; EvRestart]))
| ticked_lost :
    stream_ptr env = None ->
    restart_ o = false ->
    ticked env o
      (Done tt (torn_down (set_enabled false o))
         (emitted o status_fail_ connection_lost_error_ None))
| ticked_nothing stream :
    stream_ptr env = Some stream ->
    available stream = 0 ->
    ticked env o (Done tt o [])
| ticked_undefined stream t :
    stream_ptr env = Some stream ->
    available stream <> 0 ->
    chunked env stream o (Undefined t) ->
    ticked env o (Undefined t)
| ticked_continue stream o1 t1 :
    stream_ptr env = Some stream ->
    available stream <> 0 ->
    chunked env stream o (Done tt o1 t1) ->
    is_finished env = false ->
    ticked env o (Done tt o1 t1)
| ticked_finish_restart stream o1 t1 :
    stream_ptr env = Some stream ->
    available stream <> 0 ->
    chunked env stream o (Done tt o1 t1) ->
    is_finished env = true ->
    end_success env = true ->
    restart_ o = true ->
    ticked env o
      (Restarted (set_enabled false o1)
         (t1 ++ [EvHttpEnd; EvUpdateEnd]
          ++ emitted o status_finish_ "" None
          ++ [EvDelay 1500; EvRestart]))
| ticked_finish stream o1 t1 :
    stream_ptr env = Some stream ->
    available stream <> 0 ->
    chunked env stream o (Done tt o1 t1) ->
    is_finished env = true ->
    end_success env = true ->
    restart_ o = false ->
    ticked env o
      (Done tt (torn_down (set_enabled false o1))
         (t1 ++ [EvHttpEnd; EvUpdateEnd]
          ++ emitted o status_finish_ "" None))
| ticked_failed stream o1 t1 :
    stream_ptr env = Some stream ->
    available stream <> 0 ->
    chunked env stream o (Done tt o1 t1) ->
    is_finished env = true ->
    end_success env = false ->
    ticked env o
      (Done tt (torn_down (set_enabled false (set_restart false o1)))
         (t1 ++ [EvHttpEnd; EvUpdateEnd]
          ++ emitted o status_fail_ (error_string env) None)).

End Shapes.

(** A session is active exactly while the task is enabled, and the
    buffer is allocated exactly while a session is active. *)
Definition session_shape (o : OtaUpdater) : Prop :=
  is_updating_ o = task_enabled o
  /\ List.length (buffer_ o)
     = if is_updating_ o then 4096%nat else 0%nat.

(** Every [Update.write] hands over the bytes of the [readBytes] call just
    before it, and at most [limit] of them. *)
Definition writes_relay_reads (limit : nat) (t : list Event) : Prop :=
  forall t1 data t2,
    t = t1 ++ EvUpdateWrite data :: t2 ->
    (List.length data <= limit)%nat
    /\ exists t0, t1 = t0 ++ [EvReadBytes data].

(** The status of a result document. *)
Definition status_of (doc : JsonVariant) : option string :=
  as_cstr (member status_key_ (member update_command_key_ doc)).

(** The detail of a result document. *)
Definition detail_of (doc : JsonVariant) : option string :=
  as_cstr (member detail_key_ (member update_command_key_ doc)).

Definition is_progress (doc : JsonVariant) : bool :=
  match status_of doc with
  | Some status => String.eqb status status_updating_
  | None => false
  end.

(** The number of progress results on the result channel. *)
Definition progress_results (t : list Event) : nat :=
  List.length (filter is_progress (results_of t)).

(** The number of reports still possible after a report at [last] percent
    when the percentage stays within 0..100. *)
Definition budget (last : Z) : Z :=
  if last <? 0 then 11 else (100 - last) / 10.

(** A command whose directive asks for a restart. *)
Definition asks_restart (i : Inbound) : Prop :=
  match i with
  | Command _ message =>
      as_bool (member update_command_key_ message) = true
      /\ member restart_key_ (member update_command_key_ message)
        = JBool true
  | Tick _ => False
  end.

(** The calls [handleCallback] makes at all: results, diagnostics, the
    opening of the connection and the set-up of the flashing driver. *)
Definition command_event (e : Event) : bool :=
  match e with
  | EvSendResults _ | EvSerialPrintln _ | EvHttpBegin _ _ | EvHttpGET
  | EvUpdateSetMD5 _ | EvUpdateBegin _ => true
  | _ => false
  end.

(** A tick that finds the connection open but no byte available. *)
Definition stalled (env : TickEnv) : Prop :=
  exists stream, stream_ptr env = Some stream /\ available stream = 0.

(** ** The peripheral factory ([peripheral_factory.cpp])

    [getFactories()] is a [std::map<const String, Callback>] held in a
    function-local static: one registry for the whole program, ordered by
    [String::operator<], which is [strcmp], the order of
    [String_as_OT.lt].  The registry is passed explicitly. *)

Module Factories := FMapList.Make OrderedTypeEx.String_as_OT.
Module FactoriesFacts :=
  FMapFacts.WFacts_fun OrderedTypeEx.String_as_OT Factories.

Module PeripheralFactory.

Section Factory.

(** What a factory hands back, a [std::shared_ptr<Peripheral>], and the
    constructor of the [InvalidPeripheral] class, which is declared outside
    the translation unit. *)
Variable Peripheral : Type.
Variable InvalidPeripheral : string -> Peripheral.

(** [PeripheralFactory::Callback] *)
Definition Callback : Type := JsonVariant -> Peripheral.

Definition Registry : Type := Factories.t Callback.

Definition type_key_ : string := "type".
Definition type_key_error_ : string := "Missing property: type (string)".

(** [PeripheralFactory::unknownTypeError(type)] *)
Definition unknownTypeError (type : string) : string :=
  "Unknown peripheral type: " ++ type.

(** [std::map::emplace]: the element is inserted only when the key is not
    in the map yet. *)
Definition emplace (name : string) (factory : Callback) (factories : Registry)
  : Registry :=
  if Factories.mem name factories then factories
  else Factories.add name factory factories.

(** [PeripheralFactory::registerFactory(name, factory)]: the result and
    the registry afterwards. *)
Definition registerFactory (name : string) (factory : Callback)
    (factories : Registry) : bool * Registry :=
  if negb (Factories.mem name factories) then
    (true, emplace name factory factories)
  else (false, factories).

(** [PeripheralFactory::createPeripheral(parameter)] *)
Definition createPeripheral (factories : Registry) (parameter : JsonVariant)
  : Peripheral :=
  let type := member type_key_ parameter in
  match as_cstr type with
  | None => InvalidPeripheral type_key_error_
  | Some name =>
      match Factories.find name factories with
      | Some factory => factory parameter
      | None => InvalidPeripheral (unknownTypeError name)
      end
  end.

(** [PeripheralFactory::getFactoryNames()] *)
Definition getFactoryNames (factories : Registry) : list string :=
  map fst (Factories.elements factories).

End Factory.

End PeripheralFactory.

(** ** The sketch ([main.cpp])

    The sketch drives the board through the [wifi], [mqtt], [io] and
    [timer] objects and the Arduino core.  Their calls are recorded in
    program order; what they answer is an input. *)

Module Sketch.

(** The functions the sketch hands to [timer.every]. *)
Inductive Task : Type := CheckConnectivity | ReadAnalogSensors | TogglePumpState.

Inductive Level : Type := LOW | HIGH.

Inductive Call : Type :=
| SerialBegin (baud : Z)
| SerialPrintln (text : string)
| SerialPrintf (text : string)
| SetStatusLed (state : bool)
| WifiIsConnected
| WifiConnect
| WifiPrintState
| MqttIsConnected
| MqttConnect
| MqttReceive
| IoInit
| IoDisableAllAnalog
| PinModeOutput (pin : Z)
| DigitalWrite (pin : Z) (level : Level)
| TimerEvery (period : Z) (task : Task)
| EspRestart.

(** A function returns, or [ESP.restart()] resets the chip. *)
Inductive Outcome (A : Type) : Type :=
| Returns (a : A) (calls : list Call)
| Restarts (calls : list Call).
Arguments Returns {A} a calls.
Arguments Restarts {A} calls.

Definition calls_of {A} (r : Outcome A) : list Call :=
  match r with
  | Returns _ calls => calls
  | Restarts calls => calls
  end.

(** [const uint pump_pin = 13] *)
Definition pump_pin : Z := 13.

(** What the collaborators answer during one call of a sketch function. *)
Record Answers : Type := mkAnswers {
  wifi_isConnected : bool;     (* [wifi.isConnected()] *)
  wifi_connect : bool;         (* [wifi.connect(timeout)] *)
  mqtt_isConnected : bool;     (* [mqtt.isConnected()] *)
  mqtt_connect : bool;         (* [mqtt.connect(attempts)] *)
  io_init : bool;              (* [io.init() == Result::kSuccess] *)
  timer_ids : Z * Z * Z        (* what the three [timer.every] return *)
}.

(** The globals of the sketch that its functions write. *)
Record Globals : Type := mkGlobals {
  isPumpOn : bool;
  checkConnectivityId : Z;
  readAnalogSensorsId : Z;
  togglePumpStateId : Z
}.

(** The globals before [setup]: [isPumpOn = false], the ids
    zero-initialised. *)
Definition power_on : Globals := mkGlobals false 0 0 0.

Definition newline : string := String "010"%char "".

Section Functions.

(** [bernd_box::ssid], declared in the configuration header. *)
Variable ssid : string.

Definition wifi_failed : string :=
  "WiFi: Could not connect to " ++ ssid ++ ". Restarting" ++ newline.

(** [checkConnectivity()] *)
Definition checkConnectivity (a : Answers) : Outcome unit :=
  let wifi :=
    if negb (wifi_isConnected a) then
      [WifiIsConnected;
       SerialPrintln "WiFi: Disconnected. Attempting to reconnect";
       WifiConnect]
    else [WifiIsConnected] in
  if negb (wifi_isConnected a) && negb (wifi_connect a) then
    Restarts (wifi ++ [SerialPrintf wifi_failed; EspRestart])
  else
    let mqtt :=
      if negb (mqtt_isConnected a) then
        [MqttIsConnected;
         SerialPrintln "MQTT: Disconnected. Attempting to reconnect";
         MqttConnect]
      else [MqttIsConnected] in
    if negb (mqtt_isConnected a) && negb (mqtt_connect a) then
      Restarts
        (wifi ++ mqtt
         ++ [SerialPrintln
               ("MQTT: Could not connect to broker. Restarting" ++ newline);
             EspRestart])
    else Returns tt (wifi ++ mqtt ++ [MqttReceive]).

(** [togglePumpState()] *)
Definition togglePumpState (g : Globals) : Outcome Globals :=
  if isPumpOn g then
    Returns (mkGlobals false (checkConnectivityId g) (readAnalogSensorsId g)
               (togglePumpStateId g))
      [DigitalWrite pump_pin LOW]
  else
    Returns (mkGlobals true (checkConnectivityId g) (readAnalogSensorsId g)
               (togglePumpStateId g))
      [DigitalWrite pump_pin HIGH].

(** [setup()] *)
Definition setup (a : Answers) (g : Globals) : Outcome Globals :=
  let start := [SerialBegin 115200; SetStatusLed true; WifiConnect] in
  if negb (wifi_connect a) then
    Restarts (start ++ [SerialPrintf wifi_failed; EspRestart])
  else
    let wifi := start ++ [WifiPrintState; SetStatusLed false; MqttConnect] in
    if negb (mqtt_connect a) then
      Restarts
        (wifi
         ++ [SerialPrintln
               ("MQTT: Could not connect to broker. Restarting" ++ newline);
             EspRestart])
    else
      let mqtt := wifi ++ [IoInit] in
      if negb (io_init a) then
        Restarts
          (mqtt
           ++ [SerialPrintln
                 ("IO: Initialization failed. Restarting" ++ newline);
               EspRestart])
      else
        let '(id1, id2, id3) := timer_ids a in
        Returns (mkGlobals (isPumpOn g) id1 id2 id3)
          (mqtt
           ++ [IoDisableAllAnalog;
               PinModeOutput pump_pin;
               DigitalWrite pump_pin HIGH;
               TimerEvery 100 CheckConnectivity;
               TimerEvery 1000 ReadAnalogSensors;
               TimerEvery (1000 * 30) TogglePumpState]).

(** [n] runs of [togglePumpState], as the timer starts them one after the
    other. *)
Fixpoint toggles (n : nat) (g : Globals) : Globals * list Call :=
  match n with
  | O => (g, [])
  | S n' =>
      match togglePumpState g with
      | Returns g' calls =>
          let '(g'', rest) := toggles n' g' in (g'', calls ++ rest)
      | Restarts calls => (g, calls)
      end
  end.

End Functions.

(** The levels the pump pin is driven to, in order. *)
Fixpoint pump_levels (calls : list Call) : list Level :=
  match calls with
  | [] => []
  | DigitalWrite pin level :: rest =>
      if pin =? pump_pin then level :: pump_levels rest
      else pump_levels rest
  | _ :: rest => pump_levels rest
  end.

(** The timers registered, in order. *)
Fixpoint timers (calls : list Call) : list (Z * Task) :=
  match calls with
  | [] => []
  | TimerEvery period task :: rest => (period, task) :: timers rest
  | _ :: rest => timers rest
  end.

(** The calls that touch the MQTT client. *)
Definition touches_mqtt (c : Call) : bool :=
  match c with
  | MqttIsConnected | MqttConnect | MqttReceive => true
  | _ => false
  end.

End Sketch.

(** ** More sample data *)

Module Fixture.

(** A session of the sample task: the command "r1", then a tick that
    reads four bytes while the driver reports 530 of 1000 bytes. *)
Definition download : list Inbound :=
  [Command (mkHttpReply true 200)
     (JObject [("update",
                JObject [("url", JStr "http://h/f"); ("size", JInt 1000);
                         ("md5", JStr "abc123"); ("restart", JBool true)]);
               ("requestId", JStr "r1")]);
   Tick (mkTickEnv (Some (mkStream 4 [Byte.x7f; Byte.x45; Byte.x4c; Byte.x46]))
           530 false false "")].

(** The same session, cut off by the loss of the connection. *)
Definition cut_off : list Inbound :=
  download ++ [Tick (mkTickEnv None 0 false false "")].

(** A tick that finds the stream open and empty. *)
Definition waiting : TickEnv := mkTickEnv (Some (mkStream 0 [])) 0 false false "".

(** Peripherals told apart by a description. *)
Definition InvalidPeripheral (error : string) : string :=
  "invalid: " ++ error.

Definition led (parameter : JsonVariant) : string :=
  match as_cstr (member "pin" parameter) with
  | Some pin => "led on " ++ pin
  | None => "led"
  end.

Definition led_parameter : JsonVariant :=
  JObject [("type", JStr "led"); ("pin", JStr "D4")].

(** All links up, every start-up step succeeds. *)
Definition healthy : Sketch.Answers :=
  Sketch.mkAnswers true true true true true (0, 1, 2).

End Fixture.

(** Evaluation of the monadic glue, leaving the named blocks folded. *)
Ltac monad :=
  cbv beta iota zeta delta
    [bind ret get modify emit undefined esp_restart after].

Ltac monad_in H :=
  cbv beta iota zeta delta
    [bind ret get modify emit undefined esp_restart after] in H.

(** ** Sample data *)

Module Sample.

Definition server : Server := mkServer "-----BEGIN CERTIFICATE-----".
Definition services : ServiceGetters := mkServices (Some server).

Definition genMissingProperty (key : string) (t : KeyType) : string :=
  "Missing property: " ++ key ++
  match t with
  | kString => " (string)"
  | kBool => " (bool)"
  end.

Definition ErrorResult_toString (who detail : string) : string :=
  who ++ ": " ++ detail.

Definition server_nullptr_error_ : string := "Server nullptr".

(** [{ "update": { "url", "size", "md5", "restart" }, "requestId" }] *)
Definition command (url : string) (size : JsonVariant) (request_id : string)
  : JsonVariant :=
  JObject [("update",
            JObject [("url", JStr url); ("size", size);
                     ("md5", JStr "abc123"); ("restart", JBool true)]);
           ("requestId", JStr request_id)].

(** The same command without a request id. *)
Definition anonymous_command : JsonVariant :=
  JObject [("update",
            JObject [("url", JStr "http://h/f"); ("size", JInt 1000);
                     ("md5", JStr "abc123"); ("restart", JBool true)])].

Definition ok : HttpReply := mkHttpReply true 200.
Definition not_found : HttpReply := mkHttpReply true 404.
Definition refused : HttpReply := mkHttpReply false 0.

(** A task that never ran a session, with a server registered. *)
Definition fresh : OtaUpdater := idle services.

(** A session armed by the command "r1" for an image of [size] bytes of
    which [last] percent were reported. *)
Definition session (size last : Z) (restart : bool) : OtaUpdater :=
  mkOtaUpdater services "r1" size restart true last
    (vector_resize 4096 []) true (-1) 50.

Definition chunk : list Byte.byte := [Byte.x7f; Byte.x45; Byte.x4c; Byte.x46].

(** A tick that finds the connection gone. *)
Definition lost : TickEnv := mkTickEnv None 0 false false "".

(** A tick that reads [chunk], after which the driver has [written] bytes. *)
Definition reading (written : Z) : TickEnv :=
  mkTickEnv (Some (mkStream 4 chunk)) written false false "".

(** A tick whose write completes the image. *)
Definition completing (written : Z) (verified : bool) : TickEnv :=
  mkTickEnv (Some (mkStream 4 chunk)) written true verified "MD5 Check Failed".

End Sample.

(** ** Basic facts about the monad and the blocks *)

Lemma trace_after {A} (t : list Event) (r : Result A) :
  trace (after t r) = t ++ trace r.
Proof. destruct r; reflexivity. Qed.

Lemma flash_run_app p t1 t2 :
  flash_run p (t1 ++ t2) = flash_run (flash_run p t1) t2.
Proof. unfold flash_run. apply fold_left_app. Qed.

Lemma vector_resize_length n v : List.length (vector_resize n v) = n.
Proof.
  unfold vector_resize. rewrite length_firstn, length_app, repeat_length. lia.
Qed.

Section Blocks.

Variable genMissingProperty : string -> KeyType -> string.
Variable ErrorResult_toString : string -> string -> string.
Variable server_nullptr_error_ : string.

Local Abbreviation send :=
  (sendResult ErrorResult_toString server_nullptr_error_).
Local Abbreviation emitted :=
  (emission ErrorResult_toString server_nullptr_error_).

Lemma sendResult_run status detail request_id o :
  send status detail request_id o
  = Done tt o (emitted o status detail request_id).
Proof.
  unfold emission, sendResult, bind, get, emit.
  destruct (getServer (services_ o)); reflexivity.
Qed.

Lemma emission_server o srv status detail request_id :
  getServer (services_ o) = Some srv ->
  emitted o status detail request_id
  = [EvSendResults (result_doc request_id (request_id_ o) status detail)].
Proof.
  intros H. unfold emission, sendResult, bind, get, emit.
  rewrite H. reflexivity.
Qed.

Lemma emission_no_server o status detail request_id :
  getServer (services_ o) = None ->
  emitted o status detail request_id
  = [EvSerialPrintln (ErrorResult_toString type server_nullptr_error_)].
Proof.
  intros H. unfold emission, sendResult, bind, get, emit.
  rewrite H. reflexivity.
Qed.

(** One call of [sendResult] puts exactly one document on the result
    channel when a server is registered, and none otherwise. *)
Lemma emission_results o status detail request_id :
  results_of (emitted o status detail request_id)
  = match getServer (services_ o) with
    | Some _ => [result_doc request_id (request_id_ o) status detail]
    | None => []
    end.
Proof.
  destruct (getServer (services_ o)) as [srv|] eqn:E.
  - rewrite (emission_server o srv) by exact E. reflexivity.
  - rewrite emission_no_server by exact E. reflexivity.
Qed.

(** An armed session owns a 4096-byte buffer and a tick every 50 ms,
    without bound on the number of iterations. *)
Lemma armed_session o :
  List.length (buffer_ (armed o)) = 4096%nat
  /\ is_updating_ (armed o) = true
  /\ task_enabled (armed o) = true
  /\ task_interval (armed o) = 50
  /\ task_iterations (armed o) = -1.
Proof.
  repeat split. apply vector_resize_length.
Qed.

Lemma OnTaskDisable_run o :
  OnTaskDisable o
  = if restart_ o then Restarted o [EvDelay 1500; EvRestart]
    else Done tt (torn_down o) [].
Proof.
  unfold OnTaskDisable, bind, get, modify, emit, esp_restart, ret.
  destruct (restart_ o) eqn:E; reflexivity.
Qed.

Lemma disable_run o :
  disable o
  = if restart_ o then Restarted (set_enabled false o) [EvDelay 1500; EvRestart]
    else Done tt (torn_down (set_enabled false o)) [].
Proof.
  unfold disable, bind, modify. rewrite OnTaskDisable_run. simpl.
  destruct (restart_ o); reflexivity.
Qed.

(** A tick that finds the stream pointer gone reports the loss and goes
    to teardown. *)
Lemma Callback_lost env o :
  stream_ptr env = None ->
  Callback ErrorResult_toString server_nullptr_error_ env o
  = after (emitted o status_fail_ connection_lost_error_ None) (disable o).
Proof.
  intros H. unfold Callback, TaskCallback. rewrite H.
  unfold bind. rewrite sendResult_run. simpl. rewrite app_nil_r.
  destruct (disable o); reflexivity.
Qed.

(** A tick that finds no byte available does nothing. *)
Lemma TaskCallback_idle_stream env stream o :
  stream_ptr env = Some stream ->
  available stream = 0 ->
  TaskCallback ErrorResult_toString server_nullptr_error_ env o
  = Done true o [].
Proof.
  intros H H0. unfold TaskCallback. rewrite H, H0. reflexivity.
Qed.

(** [torn_down] is idempotent: it describes an idle object. *)
Lemma torn_down_idem o : torn_down (torn_down o) = torn_down o.
Proof. reflexivity. Qed.

(** The scheduler does not run the tick of a disabled task. *)
Lemma step_disabled env o :
  task_enabled o = false ->
  step genMissingProperty ErrorResult_toString server_nullptr_error_
    (Tick env) o = Done tt o [].
Proof.
  intros H. unfold step, bind, get. rewrite H. reflexivity.
Qed.

(** C1 (what the code does): when the stream pointer is gone during a
    tick, one fail result "Connection lost" is emitted and teardown follows
    with [restart_] as the command set it: a session that asked for a
    restart pauses and restarts the device, only a session that did not ask
    for one ends idle without a restart. *)
Theorem connection_lost_keeps_restart_intent env o :
  stream_ptr env = None ->
  Callback ErrorResult_toString server_nullptr_error_ env o
  = if restart_ o then
      Restarted (set_enabled false o)
        (emitted o status_fail_ "Connection lost" None
         ++ [EvDelay 1500; EvRestart])
    else
      Done tt (torn_down (set_enabled false o))
        (emitted o status_fail_ "Connection lost" None).
Proof.
  intros H. rewrite (Callback_lost _ _ H), disable_run.
  destruct (restart_ o); simpl; rewrite ?app_nil_r; reflexivity.
Qed.

End Blocks.

Lemma connection_lost_keeps_restart_intent_witness :
  Callback Sample.ErrorResult_toString Sample.server_nullptr_error_
    Sample.lost (Sample.session 1000 (-1) true)
  = Restarted (set_enabled false (Sample.session 1000 (-1) true))
      [EvSendResults
         (JObject [("type", JStr "result"); ("requestId", JStr "r1");
                   ("update", JObject [("status", JStr "fail");
                                       ("detail", JStr "Connection lost")])]);
       EvDelay 1500; EvRestart].
Proof.
  exact (connection_lost_keeps_restart_intent
           Sample.ErrorResult_toString Sample.server_nullptr_error_
           Sample.lost (Sample.session 1000 (-1) true) eq_refl).
Defined.

(** ** Ticks *)

Section Ticks.

Variable genMissingProperty : string -> KeyType -> string.
Variable ErrorResult_toString : string -> string -> string.
Variable server_nullptr_error_ : string.

Local Abbreviation emitted :=
  (emission ErrorResult_toString server_nullptr_error_).
Local Abbreviation tick :=
  (TaskCallback ErrorResult_toString server_nullptr_error_).
Local Abbreviation chunk_of :=
  (write_chunk ErrorResult_toString server_nullptr_error_).
Local Abbreviation finish :=
  (finish_update ErrorResult_toString server_nullptr_error_).

Lemma read_and_write_run stream o :
  read_and_write stream o
  = Done (Z.of_nat (List.length (bytes_of stream o))) (filled stream o)
      [EvReadBytes (bytes_of stream o); EvUpdateWrite (bytes_of stream o)].
Proof. reflexivity. Qed.

Lemma filled_length stream o :
  List.length (buffer_ (filled stream o)) = List.length (buffer_ o).
Proof.
  unfold filled, bytes_of. simpl.
  rewrite length_app, length_skipn, length_firstn. lia.
Qed.

(** The completion block, once the driver reports the image complete. *)
Lemma finish_update_run env o :
  is_finished env = true ->
  finish env o
  = if end_success env then
      after ([EvHttpEnd; EvUpdateEnd] ++ emitted o status_finish_ "" None)
        (disable o)
    else
      after ([EvHttpEnd; EvUpdateEnd]
             ++ emitted o status_fail_ (error_string env) None)
        (disable (set_restart false o)).
Proof.
  intros H. unfold finish_update. rewrite H.
  destruct (end_success env); monad; rewrite sendResult_run; monad.
  - destruct (disable o); reflexivity.
  - destruct (disable (set_restart false o)); simpl;
      rewrite <- ?app_assoc; reflexivity.
Qed.

Lemma finish_update_skip env o :
  is_finished env = false -> finish env o = Done tt o [].
Proof. intros H. unfold finish_update. rewrite H. reflexivity. Qed.

(** A tick with available bytes is the chunk followed by the completion
    block. *)
Lemma TaskCallback_available env stream o o1 t1 :
  stream_ptr env = Some stream ->
  available stream <> 0 ->
  chunk_of env stream o = Done tt o1 t1 ->
  tick env o = after t1 ((finish env ;; ret true) o1).
Proof.
  intros H Ha Hc. unfold TaskCallback. rewrite H.
  apply Z.eqb_neq in Ha. rewrite Ha. simpl negb. monad. rewrite Hc. monad.
  destruct (finish env o1); simpl; rewrite ?app_nil_r; reflexivity.
Qed.

Lemma emission_frame o o' status detail request_id :
  services_ o' = services_ o ->
  request_id_ o' = request_id_ o ->
  emitted o' status detail request_id = emitted o status detail request_id.
Proof.
  intros Hs Hr. unfold emission, sendResult. monad. rewrite Hs, Hr.
  destruct (getServer (services_ o)); reflexivity.
Qed.

Lemma report_progress_run env o :
  report_progress ErrorResult_toString server_nullptr_error_ env o
  = match percent_of (progress env) (image_size_ o) with
    | None => Undefined []
    | Some percent =>
        if (0 <=? last_percent_update o)
           && (Float32.INT_MAX <? last_percent_update o + 10)
        then Undefined []
        else if reports (last_percent_update o) percent then
          Done tt (set_last_percent percent o)
            (emitted o status_updating_
               ("{done:" ++ String_of_int percent ++ "%}") None)
        else Done tt o []
    end.
Proof.
  unfold report_progress, reports. monad.
  destruct (percent_of (progress env) (image_size_ o)) as [pc|];
    [|reflexivity].
  destruct (Z.ltb_spec (last_percent_update o) 0) as [Hl|Hl].
  - replace (0 <=? last_percent_update o) with false
      by (symmetry; apply Z.leb_gt; lia).
    simpl. monad. rewrite sendResult_run. simpl.
    rewrite ?app_nil_r.
    rewrite (emission_frame o (set_last_percent pc o)) by reflexivity.
    reflexivity.
  - replace (0 <=? last_percent_update o) with true
      by (symmetry; apply Z.leb_le; lia).
    simpl. destruct (Float32.INT_MAX <? last_percent_update o + 10);
      [reflexivity|].
    destruct (last_percent_update o + 10 <=? pc); [|reflexivity].
    monad. rewrite sendResult_run. simpl. rewrite ?app_nil_r.
    rewrite (emission_frame o (set_last_percent pc o)) by reflexivity.
    reflexivity.
Qed.

Lemma write_chunk_run env stream o :
  chunk_of env stream o
  = after [EvReadBytes (bytes_of stream o); EvUpdateWrite (bytes_of stream o)]
      (match bytes_of stream o with
       | [] => Done tt (filled stream o) []
       | _ :: _ =>
           report_progress ErrorResult_toString server_nullptr_error_ env
             (filled stream o)
       end).
Proof.
  unfold write_chunk. monad. rewrite read_and_write_run. monad.
  destruct (bytes_of stream o) as [|b bs] eqn:E.
  - reflexivity.
  - replace (negb (Z.of_nat (List.length (b :: bs)) =? 0)) with true
      by (symmetry; apply negb_true_iff, Z.eqb_neq; simpl List.length; lia).
    destruct (report_progress _ _ _ _); reflexivity.
Qed.

(** The chunk returns whenever nothing was read, or the percentage is
    defined and adding ten to the last report does not overflow. *)
Lemma write_chunk_returns env stream o :
  bytes_of stream o = []
  \/ (percent_of (progress env) (image_size_ o) <> None
      /\ last_percent_update o <= Float32.INT_MAX - 10) ->
  exists o1 t1, chunk_of env stream o = Done tt o1 t1.
Proof.
  intros H. rewrite write_chunk_run.
  destruct (bytes_of stream o) as [|b bs].
  - eexists _, _. reflexivity.
  - destruct H as [H|[Hp Hl]]; [discriminate|].
    rewrite report_progress_run.
    change (image_size_ (filled stream o)) with (image_size_ o).
    change (last_percent_update (filled stream o))
      with (last_percent_update o).
    destruct (percent_of (progress env) (image_size_ o)) as [pc|];
      [|congruence].
    replace (Float32.INT_MAX <? last_percent_update o + 10) with false
      by (symmetry; apply Z.ltb_ge; lia).
    rewrite andb_false_r.
    destruct (reports _ _); eexists _, _; reflexivity.
Qed.

(** The chunk never touches [restart_], the request id or the services. *)
Lemma write_chunk_frame env stream o o1 t1 :
  chunk_of env stream o = Done tt o1 t1 ->
  restart_ o1 = restart_ o /\ request_id_ o1 = request_id_ o
  /\ services_ o1 = services_ o /\ is_updating_ o1 = is_updating_ o
  /\ task_enabled o1 = task_enabled o /\ image_size_ o1 = image_size_ o
  /\ List.length (buffer_ o1) = List.length (buffer_ o).
Proof.
  rewrite write_chunk_run.
  destruct (bytes_of stream o) as [|b bs] eqn:Eb.
  - simpl. intros E. injection E as <- _.
    repeat split; apply filled_length.
  - rewrite report_progress_run.
    destruct (percent_of _ _) as [pc|]; [|discriminate].
    destruct (_ && _); [discriminate|].
    destruct (reports _ _); simpl;
      intros E; injection E as <- _; repeat split; apply filled_length.
Qed.

(** The events of a chunk: the read, the write, then at most one call of
    [sendResult]; in particular neither [client_.end()] nor [Update.end()]. *)
Lemma emission_events o status detail request_id e :
  In e (emitted o status detail request_id) ->
  e <> EvHttpEnd /\ e <> EvUpdateEnd /\ e <> EvRestart.
Proof.
  unfold emission, sendResult. monad.
  destruct (getServer (services_ o)); simpl;
    intros [<-|[]]; repeat split; discriminate.
Qed.

Lemma write_chunk_events env stream o o1 t1 :
  chunk_of env stream o = Done tt o1 t1 ->
  ~ In EvHttpEnd t1 /\ ~ In EvUpdateEnd t1 /\ ~ In EvRestart t1.
Proof.
  pose proof emission_events as Hem.
  rewrite write_chunk_run.
  destruct (bytes_of stream o) as [|b bs].
  - simpl. intros E. injection E as _ <-.
    repeat split; simpl; intros [H|[H|[]]]; discriminate.
  - rewrite report_progress_run.
    destruct (percent_of _ _) as [pc|]; [|discriminate].
    destruct (_ && _); [discriminate|].
    destruct (reports _ _); simpl; intros E; injection E as _ <-.
    + repeat split; intros [H|[H|H]]; try discriminate;
        apply Hem in H; destruct H as (? & ? & ?); congruence.
    + repeat split; simpl; intros [H|[H|[]]]; discriminate.
Qed.

Lemma then_true_run (m : M unit) o :
  (m ;; ret true) o
  = match m o with
    | Done _ o' t => Done true o' t
    | Restarted o' t => Restarted o' t
    | Undefined t => Undefined t
    end.
Proof. monad. destruct (m o); rewrite ?app_nil_r; reflexivity. Qed.

(** The tick whose write completes the image. *)
Lemma TaskCallback_complete env stream o o1 t1 :
  stream_ptr env = Some stream ->
  available stream <> 0 ->
  is_finished env = true ->
  chunk_of env stream o = Done tt o1 t1 ->
  tick env o
  = if end_success env then
      if restart_ o then
        Restarted (set_enabled false o1)
          (t1 ++ [EvHttpEnd; EvUpdateEnd]
           ++ emitted o status_finish_ "" None
           ++ [EvDelay 1500; EvRestart])
      else
        Done true (torn_down (set_enabled false o1))
          (t1 ++ [EvHttpEnd; EvUpdateEnd]
           ++ emitted o status_finish_ "" None)
    else
      Done true (torn_down (set_enabled false (set_restart false o1)))
        (t1 ++ [EvHttpEnd; EvUpdateEnd]
         ++ emitted o status_fail_ (error_string env) None).
Proof.
  intros Hs Ha Hf Hc.
  destruct (write_chunk_frame _ _ _ _ _ Hc) as (Hr & Hid & Hsv & _).
  rewrite (TaskCallback_available _ _ _ _ _ Hs Ha Hc).
  rewrite then_true_run, (finish_update_run _ _ Hf).
  rewrite !(emission_frame o o1) by assumption.
  destruct (end_success env).
  - rewrite disable_run, Hr. destruct (restart_ o); simpl;
      rewrite <- ?app_assoc, ?app_nil_r; reflexivity.
  - rewrite disable_run. simpl. rewrite app_nil_r. reflexivity.
Qed.

(** C3: when the driver reports the image complete after a write,
    [client_.end()] comes before [Update.end()]; on success a "finish"
    result without detail is sent and teardown runs with [restart_] as
    the session had it (so a requested restart happens); on failure a fail
    result with the driver's error text is sent, [restart_] is cleared
    whatever it was, and teardown leaves the task idle; in both branches
    the tick is deregistered. *)
Theorem complete_image_closes_then_finalises env stream o o1 t1 :
  stream_ptr env = Some stream ->
  available stream <> 0 ->
  is_finished env = true ->
  chunk_of env stream o = Done tt o1 t1 ->
  (~ In EvHttpEnd t1 /\ ~ In EvUpdateEnd t1 /\ ~ In EvRestart t1)
  /\ tick env o
     = (if end_success env then
          if restart_ o then
            Restarted (set_enabled false o1)
              (t1 ++ [EvHttpEnd; EvUpdateEnd]
               ++ emitted o status_finish_ "" None
               ++ [EvDelay 1500; EvRestart])
          else
            Done true (torn_down (set_enabled false o1))
              (t1 ++ [EvHttpEnd; EvUpdateEnd]
               ++ emitted o status_finish_ "" None)
        else
          Done true (torn_down (set_enabled false (set_restart false o1)))
            (t1 ++ [EvHttpEnd; EvUpdateEnd]
             ++ emitted o status_fail_ (error_string env) None))
  /\ (forall srv, getServer (services_ o) = Some srv ->
      emitted o status_finish_ "" None
      = [EvSendResults
           (JObject ([(type_key_, JStr result_type_)]
                     ++ (if isEmpty (request_id_ o) then []
                         else [(request_id_key_, JStr (request_id_ o))])
                     ++ [(update_command_key_,
                          JObject [(status_key_, JStr "finish")])]))]
      /\ emitted o status_fail_ (error_string env) None
        = [EvSendResults
             (result_doc None (request_id_ o) "fail" (error_string env))]).
Proof.
  intros Hs Ha Hf Hc.
  split; [exact (write_chunk_events _ _ _ _ _ Hc)|]. split.
  - exact (TaskCallback_complete _ _ _ _ _ Hs Ha Hf Hc).
  - intros srv Hsrv. rewrite !(emission_server _ _ _ srv) by assumption.
    split; reflexivity.
Qed.

(** C7 (as amended): [percent] is the single-precision value of
    [float(progress) / float(image_size_) * 100] truncated to [int].  After
    a read of at least one byte an "updating" result with detail
    [{done:NN%}] is sent, and [last_percent_update] set to [percent], if
    and only if [last_percent_update] is the sentinel -1 or
    [last_percent_update + 10 <= percent]; a read of zero bytes sends no
    progress result.  The completion check follows in either case. *)
Theorem progress_every_ten_percent env stream o :
  stream_ptr env = Some stream ->
  available stream <> 0 ->
  (bytes_of stream o = [] ->
   tick env o
   = after [EvReadBytes []; EvUpdateWrite []]
       ((finish env ;; ret true) (filled stream o)))
  /\ (forall percent,
      bytes_of stream o <> [] ->
      percent_of (progress env) (image_size_ o) = Some percent ->
      -1 <= last_percent_update o <= Float32.INT_MAX - 10 ->
      (last_percent_update o = -1 \/ last_percent_update o + 10 <= percent ->
       tick env o
       = after ([EvReadBytes (bytes_of stream o);
                 EvUpdateWrite (bytes_of stream o)]
                ++ emitted o status_updating_
                     ("{done:" ++ String_of_int percent ++ "%}") None)
           ((finish env ;; ret true)
              (set_last_percent percent (filled stream o))))
      /\ (~ (last_percent_update o = -1
             \/ last_percent_update o + 10 <= percent) ->
         tick env o
         = after [EvReadBytes (bytes_of stream o);
                  EvUpdateWrite (bytes_of stream o)]
             ((finish env ;; ret true) (filled stream o)))).
Proof.
  intros Hs Ha. split.
  - intros Hb.
    rewrite (TaskCallback_available env stream o (filled stream o)
               [EvReadBytes []; EvUpdateWrite []] Hs Ha); [reflexivity|].
    rewrite write_chunk_run, Hb. reflexivity.
  - intros pc Hb Hp Hl.
    assert (Hrun : chunk_of env stream o
                   = after [EvReadBytes (bytes_of stream o);
                            EvUpdateWrite (bytes_of stream o)]
                       (if reports (last_percent_update o) pc then
                          Done tt (set_last_percent pc (filled stream o))
                            (emitted o status_updating_
                               ("{done:" ++ String_of_int pc ++ "%}") None)
                        else Done tt (filled stream o) [])).
    { rewrite write_chunk_run.
      destruct (bytes_of stream o) as [|b bs]; [congruence|].
      rewrite report_progress_run.
      change (image_size_ (filled stream o)) with (image_size_ o).
      change (last_percent_update (filled stream o))
        with (last_percent_update o).
      rewrite Hp.
      replace (Float32.INT_MAX <? last_percent_update o + 10) with false
        by (symmetry; apply Z.ltb_ge; lia).
      rewrite andb_false_r.
      rewrite (emission_frame o (filled stream o)) by reflexivity.
      reflexivity. }
    assert (Hiff : reports (last_percent_update o) pc = true
                   <-> (last_percent_update o = -1
                        \/ last_percent_update o + 10 <= pc)).
    { unfold reports. rewrite orb_true_iff, Z.ltb_lt, Z.leb_le. lia. }
    split; intros Hd.
    + apply Hiff in Hd. rewrite Hd in Hrun.
      rewrite (TaskCallback_available _ _ _ _ _ Hs Ha Hrun). reflexivity.
    + destruct (reports (last_percent_update o) pc) eqn:E;
        [exfalso; apply Hd, Hiff; reflexivity|].
      rewrite (TaskCallback_available _ _ _ _ _ Hs Ha Hrun). reflexivity.
Qed.

(** C9 (as amended): teardown tests [restart_] first.  If it is set the
    device pauses 1500 ms and restarts, and none of the resets has been
    performed at that point; otherwise the buffer is released, the request
    id cleared, [last_percent_update] reset to -1 and the active flag
    cleared, without pause or restart.  A tick that ends a session (stream
    gone, or image complete) runs teardown once: either the device restarts
    or the task is left idle and deregistered, so that no later tick runs. *)
Theorem teardown_tests_restart_first o :
  (restart_ o = true -> OnTaskDisable o = Restarted o [EvDelay 1500; EvRestart])
  /\ (restart_ o = false ->
      OnTaskDisable o = Done tt (torn_down o) []
      /\ buffer_ (torn_down o) = []
      /\ request_id_ (torn_down o) = ""
      /\ last_percent_update (torn_down o) = -1
      /\ is_updating_ (torn_down o) = false)
  /\ (forall env,
      task_enabled o = true ->
      (stream_ptr env = None
       \/ exists stream o1 t1,
            stream_ptr env = Some stream /\ available stream <> 0
            /\ is_finished env = true
            /\ chunk_of env stream o = Done tt o1 t1) ->
      (exists o' t,
          step genMissingProperty ErrorResult_toString server_nullptr_error_
            (Tick env) o = Restarted o' (t ++ [EvDelay 1500; EvRestart])
          /\ ~ In EvRestart t
          /\ is_updating_ o' = is_updating_ o
          /\ List.length (buffer_ o') = List.length (buffer_ o))
      \/ (exists o' t,
             step genMissingProperty ErrorResult_toString server_nullptr_error_
               (Tick env) o = Done tt o' t
             /\ ~ In EvRestart t
             /\ torn_down o' = o'
             /\ task_enabled o' = false
             /\ forall env',
                 step genMissingProperty ErrorResult_toString
                   server_nullptr_error_ (Tick env') o' = Done tt o' [])).
Proof.
  split; [|split].
  - intros H. rewrite OnTaskDisable_run, H. reflexivity.
  - intros H. rewrite OnTaskDisable_run, H. repeat split.
  - intros env He Hend. unfold step. monad. rewrite He.
    destruct Hend as [Hlost | (stream & o1 & t1 & Hs & Ha & Hf & Hc)].
    + rewrite (Callback_lost _ _ _ _ Hlost), disable_run.
      destruct (restart_ o).
      * left. exists (set_enabled false o),
          (emitted o status_fail_ connection_lost_error_ None).
        repeat split.
        intros Hin. apply emission_events in Hin. tauto.
      * right. exists (torn_down (set_enabled false o)),
          (emitted o status_fail_ connection_lost_error_ None).
        simpl. rewrite app_nil_r. repeat split.
        intros Hin. apply emission_events in Hin. tauto.
    + destruct (write_chunk_frame _ _ _ _ _ Hc)
        as (_ & _ & _ & Hu & _ & _ & Hlen).
      destruct (write_chunk_events _ _ _ _ _ Hc) as (_ & _ & Hnr).
      assert (Hno : forall s d,
                 ~ In EvRestart
                     (t1 ++ [EvHttpEnd; EvUpdateEnd] ++ emitted o s d None)).
      { intros s d Hin. apply in_app_or in Hin. destruct Hin as [Hin|Hin];
          [tauto|].
        destruct Hin as [Hin|[Hin|Hin]]; try discriminate.
        apply emission_events in Hin. tauto. }
      unfold Callback. monad.
      rewrite (TaskCallback_complete _ _ _ _ _ Hs Ha Hf Hc).
      destruct (end_success env); [destruct (restart_ o)|].
      * left. exists (set_enabled false o1),
          (t1 ++ [EvHttpEnd; EvUpdateEnd] ++ emitted o status_finish_ "" None).
        rewrite <- !app_assoc. repeat split; try assumption.
        rewrite !app_assoc. rewrite <- (app_assoc t1). apply Hno.
      * right. exists (torn_down (set_enabled false o1)),
          (t1 ++ [EvHttpEnd; EvUpdateEnd] ++ emitted o status_finish_ "" None).
        rewrite app_nil_r. repeat split. apply Hno.
      * right. exists (torn_down (set_enabled false (set_restart false o1))),
          (t1 ++ [EvHttpEnd; EvUpdateEnd]
           ++ emitted o status_fail_ (error_string env) None).
        rewrite app_nil_r. repeat split. apply Hno.
Qed.

End Ticks.

Lemma complete_image_closes_then_finalises_witness :
  TaskCallback Sample.ErrorResult_toString Sample.server_nullptr_error_
    (Sample.completing 1000 true) (Sample.session 1000 (-1) true)
  = Restarted
      (set_enabled false
         (set_last_percent 100
            (filled (mkStream 4 Sample.chunk) (Sample.session 1000 (-1) true))))
      [EvReadBytes Sample.chunk; EvUpdateWrite Sample.chunk;
       EvSendResults
         (JObject [("type", JStr "result"); ("requestId", JStr "r1");
                   ("update", JObject [("status", JStr "updating");
                                       ("detail", JStr "{done:100%}")])]);
       EvHttpEnd; EvUpdateEnd;
       EvSendResults
         (JObject [("type", JStr "result"); ("requestId", JStr "r1");
                   ("update", JObject [("status", JStr "finish")])]);
       EvDelay 1500; EvRestart]
  /\ TaskCallback Sample.ErrorResult_toString Sample.server_nullptr_error_
       (Sample.completing 1000 false) (Sample.session 1000 (-1) true)
     = Done true
         (torn_down
            (set_enabled false
               (set_restart false
                  (set_last_percent 100
                     (filled (mkStream 4 Sample.chunk)
                        (Sample.session 1000 (-1) true))))))
         [EvReadBytes Sample.chunk; EvUpdateWrite Sample.chunk;
          EvSendResults
            (JObject [("type", JStr "result"); ("requestId", JStr "r1");
                      ("update", JObject [("status", JStr "updating");
                                          ("detail", JStr "{done:100%}")])]);
          EvHttpEnd; EvUpdateEnd;
          EvSendResults
            (JObject [("type", JStr "result"); ("requestId", JStr "r1");
                      ("update", JObject [("status", JStr "fail");
                                          ("detail",
                                           JStr "MD5 Check Failed")])])].
Proof.
  split.
  - refine (proj1 (proj2
      (complete_image_closes_then_finalises
         Sample.ErrorResult_toString Sample.server_nullptr_error_
         (Sample.completing 1000 true) (mkStream 4 Sample.chunk)
         (Sample.session 1000 (-1) true) _ _ eq_refl _ eq_refl eq_refl))).
    discriminate.
  - refine (proj1 (proj2
      (complete_image_closes_then_finalises
         Sample.ErrorResult_toString Sample.server_nullptr_error_
         (Sample.completing 1000 false) (mkStream 4 Sample.chunk)
         (Sample.session 1000 (-1) true) _ _ eq_refl _ eq_refl eq_refl))).
    discriminate.
Defined.

(** C7, counterexample: 217088 bytes (53 sectors of 4096 bytes) of a
    409600-byte image are 53 percent, but the single-precision computation
    yields 52: the first report reads [{done:52%}], and after a report at
    43 percent no report is sent. *)
Lemma progress_percent_is_not_the_floor :
  percent_floor 217088 409600 = 53
  /\ percent_of 217088 409600 = Some 52
  /\ results_of (trace
       (TaskCallback Sample.ErrorResult_toString Sample.server_nullptr_error_
          (Sample.reading 217088) (Sample.session 409600 (-1) false)))
     = [result_doc None "r1" "updating" "{done:52%}"]
  /\ results_of (trace
       (TaskCallback Sample.ErrorResult_toString Sample.server_nullptr_error_
          (Sample.reading 217088) (Sample.session 409600 (-1) false)))
     <> [result_doc None "r1" "updating"
           ("{done:" ++ String_of_int (percent_floor 217088 409600) ++ "%}")]
  /\ 43 + 10 <= percent_floor 217088 409600
  /\ results_of (trace
       (TaskCallback Sample.ErrorResult_toString Sample.server_nullptr_error_
          (Sample.reading 217088) (Sample.session 409600 43 false)))
     = [].
Proof.
  split; [reflexivity|]. split; [reflexivity|]. split; [reflexivity|].
  split; [vm_compute; discriminate|]. split; [|reflexivity].
  vm_compute. discriminate.
Qed.

Lemma progress_every_ten_percent_witness :
  TaskCallback Sample.ErrorResult_toString Sample.server_nullptr_error_
    (Sample.reading 530) (Sample.session 1000 (-1) false)
  = Done true
      (set_last_percent 52
         (filled (mkStream 4 Sample.chunk) (Sample.session 1000 (-1) false)))
      [EvReadBytes Sample.chunk; EvUpdateWrite Sample.chunk;
       EvSendResults
         (JObject [("type", JStr "result"); ("requestId", JStr "r1");
                   ("update", JObject [("status", JStr "updating");
                                       ("detail", JStr "{done:52%}")])])]
  /\ TaskCallback Sample.ErrorResult_toString Sample.server_nullptr_error_
       (Sample.reading 600) (Sample.session 1000 52 false)
     = Done true
         (filled (mkStream 4 Sample.chunk) (Sample.session 1000 52 false))
         [EvReadBytes Sample.chunk; EvUpdateWrite Sample.chunk].
Proof.
  split.
  - refine (proj1 (proj2
      (progress_every_ten_percent
         Sample.ErrorResult_toString Sample.server_nullptr_error_
         (Sample.reading 530) (mkStream 4 Sample.chunk)
         (Sample.session 1000 (-1) false) eq_refl _) 52 _ eq_refl _)
      (or_introl eq_refl)).
    + discriminate.
    + discriminate.
    + split; discriminate.
  - refine (proj2 (proj2
      (progress_every_ten_percent
         Sample.ErrorResult_toString Sample.server_nullptr_error_
         (Sample.reading 600) (mkStream 4 Sample.chunk)
         (Sample.session 1000 52 false) eq_refl _) 60 _ eq_refl _) _).
    + discriminate.
    + discriminate.
    + split; discriminate.
    + intros [H|H]; [discriminate H | apply H; reflexivity].
Defined.

(** C9, counterexample: teardown of a session that asked for a restart
    reaches [esp_restart()] with the buffer still allocated, the request id
    and the last percentage still set and the session still marked active. *)
Lemma teardown_restarts_before_resetting :
  OnTaskDisable (Sample.session 1000 50 true)
  = Restarted (Sample.session 1000 50 true) [EvDelay 1500; EvRestart]
  /\ List.length (buffer_ (Sample.session 1000 50 true)) = 4096%nat
  /\ request_id_ (Sample.session 1000 50 true) = "r1"
  /\ last_percent_update (Sample.session 1000 50 true) = 50
  /\ is_updating_ (Sample.session 1000 50 true) = true
  /\ (forall t,
       OnTaskDisable (Sample.session 1000 50 true)
       <> Restarted (torn_down (Sample.session 1000 50 true)) t).
Proof.
  repeat split. intros t. vm_compute. discriminate.
Qed.

Lemma teardown_tests_restart_first_witness :
  OnTaskDisable (Sample.session 1000 50 false)
  = Done tt (torn_down (Sample.session 1000 50 false)) []
  /\ OnTaskDisable (Sample.session 1000 50 true)
     = Restarted (Sample.session 1000 50 true) [EvDelay 1500; EvRestart].
Proof.
  split.
  - exact (proj1 (proj1 (proj2
      (teardown_tests_restart_first
         Sample.genMissingProperty Sample.ErrorResult_toString
         Sample.server_nullptr_error_ (Sample.session 1000 50 false)))
      eq_refl)).
  - exact (proj1
      (teardown_tests_restart_first
         Sample.genMissingProperty Sample.ErrorResult_toString
         Sample.server_nullptr_error_ (Sample.session 1000 50 true))
      eq_refl).
Defined.

(** ** Commands *)

Section Commands.

Variable genMissingProperty : string -> KeyType -> string.
Variable ErrorResult_toString : string -> string -> string.
Variable server_nullptr_error_ : string.

Local Abbreviation emitted :=
  (emission ErrorResult_toString server_nullptr_error_).
Local Abbreviation handle :=
  (handleCallback genMissingProperty ErrorResult_toString
     server_nullptr_error_).
Local Abbreviation connect :=
  (open_connection ErrorResult_toString server_nullptr_error_).

Lemma open_connection_run http url o :
  connect http url o
  = if String.eqb url "https" then
      match getServer (services_ o) with
      | None =>
          Done None o
            [EvSerialPrintln (ErrorResult_toString type server_nullptr_error_)]
      | Some server =>
          Done (Some (begin_ok http)) o
            [EvHttpBegin url (Some (getRootCas server))]
      end
    else Done (Some (begin_ok http)) o [EvHttpBegin url None].
Proof.
  unfold open_connection. destruct (String.eqb url "https"); [|reflexivity].
  monad. destruct (getServer (services_ o)); reflexivity.
Qed.

(** A message without update directive is none of the task's business. *)
Lemma handleCallback_irrelevant http message o :
  as_bool (member update_command_key_ message) = false ->
  handle http message o = Done tt o [].
Proof.
  intros H. unfold handleCallback. monad. rewrite H. reflexivity.
Qed.

(** A directive that arrives during a session is turned down. *)
Lemma handleCallback_busy http message o :
  as_bool (member update_command_key_ message) = true ->
  is_updating_ o = true ->
  handle http message o
  = Done tt o
      (emitted o status_fail_ update_in_progress_error_
         (request_id_of message)).
Proof.
  intros Hu Hb. unfold handleCallback. monad. rewrite Hu. cbn [negb]. monad.
  rewrite Hb, sendResult_run. simpl. rewrite ?app_nil_r. reflexivity.
Qed.

(** A directive that fails a check is answered with one fail result made
    on the object that already carries the new request id. *)
Lemma handleCallback_rejects http message o key kind :
  as_bool (member update_command_key_ message) = true ->
  is_updating_ o = false ->
  first_missing (member update_command_key_ message) = Some (key, kind) ->
  handle http message o
  = Done tt (rejected message o)
      (emitted (set_request_id (String_of_cstr (request_id_of message)) o)
         status_fail_ (genMissingProperty key kind) None).
Proof.
  intros Hu Hidle. unfold handleCallback, first_missing, rejected. monad.
  rewrite Hu. cbn [negb]. monad. rewrite Hidle. unfold request_id_of.
  set (o' := set_request_id _ o).
  destruct (as_cstr (member url_key_ _)) as [url|].
  2:{ intros E. injection E as <- <-. rewrite sendResult_run. simpl.
      rewrite ?app_nil_r. reflexivity. }
  destruct (is_size_t _); cbn [negb].
  2:{ intros E. injection E as <- <-. rewrite sendResult_run. simpl.
      rewrite ?app_nil_r. reflexivity. }
  monad.
  destruct (as_cstr (member md5_hash_key_ _)) as [md5|].
  2:{ intros E. injection E as <- <-. rewrite sendResult_run. simpl.
      rewrite ?app_nil_r.
      rewrite (emission_frame _ _ o' (set_image_size _ o')) by reflexivity.
      reflexivity. }
  destruct (is_bool _); cbn [negb]; [discriminate|].
  intros E. injection E as <- <-. rewrite sendResult_run. simpl.
  rewrite ?app_nil_r.
  rewrite (emission_frame _ _ o' (set_image_size _ o')) by reflexivity.
  reflexivity.
Qed.

(** A directive that passes validation: the outcome is decided by the
    connection. *)
Lemma handleCallback_valid http message url size md5 restart o :
  carries message url size md5 restart ->
  is_updating_ o = false ->
  handle http message o
  = match connect http url
            (accepted (request_id_of message) size restart o) with
    | Done None o' t => Done tt o' t
    | Done (Some false) o' t =>
        Done tt o' (t ++ emitted o' status_fail_ failed_to_connect_error_ None)
    | Done (Some true) o' t =>
        if get_code http =? HTTP_CODE_OK then
          Done tt (armed o')
            (t ++ [EvHttpGET; EvUpdateSetMD5 md5; EvUpdateBegin size]
             ++ emitted o' status_start_ "" None)
        else
          Done tt o'
            (t ++ [EvHttpGET]
             ++ emitted o' status_fail_
                  (ErrorResult_toString type
                     (http_code_error_ ++ String_of_int (get_code http)))
                  None)
    | Restarted o' t => Restarted o' t
    | Undefined t => Undefined t
    end.
Proof.
  intros (Hu & Hurl & Hsize & Hrange & Hmd5 & Hrestart) Hidle.
  unfold handleCallback. monad. rewrite Hu. cbn [negb]. monad. rewrite Hidle.
  rewrite Hurl, Hsize, Hmd5, Hrestart. cbn [as_cstr is_bool as_bool].
  unfold is_size_t, as_size_t.
  replace ((0 <=? size) && (size <=? SIZE_MAX)) with true
    by (symmetry; apply andb_true_iff; split; apply Z.leb_le; lia).
  cbn [negb]. monad. unfold accepted, request_id_of.
  rewrite !open_connection_run.
  set (o' := set_restart restart _).
  destruct (String.eqb url "https"); [destruct (getServer (services_ o'))|];
    try reflexivity;
    (destruct (begin_ok http); cbn [negb]; monad;
     [ destruct (get_code http =? HTTP_CODE_OK); cbn [negb]; monad;
       [ rewrite sendResult_run; unfold enable, OnTaskEnable; monad
       | rewrite sendResult_run; monad ]
     | rewrite sendResult_run; monad ]);
    cbn [app]; rewrite ?app_nil_r; reflexivity.
Qed.

(** The [requestId] member of a result document. *)
Lemma result_doc_tag request_id stored status detail :
  member request_id_key_ (result_doc request_id stored status detail)
  = match request_id with
    | Some r => JStr r
    | None => if isEmpty stored then JNull else JStr stored
    end.
Proof.
  unfold result_doc. destruct request_id as [r|]; [reflexivity|].
  destruct (isEmpty stored); reflexivity.
Qed.

(** The status and the detail of a result document. *)
Lemma result_doc_update request_id stored status detail :
  member update_command_key_ (result_doc request_id stored status detail)
  = JObject ([(status_key_, JStr status)]
             ++ (if isEmpty detail then [] else [(detail_key_, JStr detail)])).
Proof.
  unfold result_doc. destruct request_id as [r|]; [reflexivity|].
  destruct (isEmpty stored); reflexivity.
Qed.

(** C6 (as amended): a directive that arrives while a session is active
    is answered with exactly one fail result whose detail is "OTA update
    already running"; the result is tagged with the new command's request id
    when the command has one, otherwise with the stored id of the active
    session, if that is not empty; the session's object is unchanged in
    every member. *)
Theorem busy_session_turns_command_down http message o :
  as_bool (member update_command_key_ message) = true ->
  is_updating_ o = true ->
  handle http message o
  = Done tt o
      (emitted o status_fail_ "OTA update already running"
         (request_id_of message))
  /\ (forall srv, getServer (services_ o) = Some srv ->
      exists doc,
        emitted o status_fail_ "OTA update already running"
          (request_id_of message) = [EvSendResults doc]
        /\ member update_command_key_ doc
          = JObject [(status_key_, JStr "fail");
                     (detail_key_, JStr "OTA update already running")]
        /\ member request_id_key_ doc
          = match request_id_of message with
            | Some r => JStr r
            | None =>
                if isEmpty (request_id_ o) then JNull
                else JStr (request_id_ o)
            end).
Proof.
  intros Hu Hb. split.
  - exact (handleCallback_busy http message o Hu Hb).
  - intros srv Hsrv. eexists. split; [|split].
    + exact (emission_server _ _ _ _ _ _ _ Hsrv).
    + apply result_doc_update.
    + apply result_doc_tag.
Qed.

(** C10 (as amended): a directive that arrives while no session is active
    overwrites the stored request id with the command's request id (empty
    when the command has none) before any field is validated: the fail
    result for a malformed directive is made on the object that carries the
    new id, and the id stays stored after the rejection.  A directive that
    arrives during a session leaves the stored request id as it is. *)
Theorem request_id_recorded_before_validation http message o :
  as_bool (member update_command_key_ message) = true ->
  (is_updating_ o = true ->
   option_map request_id_ (final (handle http message o))
   = Some (request_id_ o))
  /\ (is_updating_ o = false ->
      forall key kind,
        first_missing (member update_command_key_ message)
        = Some (key, kind) ->
        let id := String_of_cstr (request_id_of message) in
        handle http message o
        = Done tt (rejected message o)
            (emitted (set_request_id id o) status_fail_
               (genMissingProperty key kind) None)
        /\ request_id_ (rejected message o) = id
        /\ is_updating_ (rejected message o) = false
        /\ (forall srv, getServer (services_ o) = Some srv ->
            exists doc,
              emitted (set_request_id id o) status_fail_
                (genMissingProperty key kind) None = [EvSendResults doc]
              /\ member request_id_key_ doc
                = (if isEmpty id then JNull else JStr id))).
Proof.
  intros Hu. split.
  - intros Hb. rewrite (handleCallback_busy http message o Hu Hb).
    reflexivity.
  - intros Hidle key kind Hm id. split; [|split; [|split]].
    + exact (handleCallback_rejects http message o key kind Hu Hidle Hm).
    + unfold rejected.
      destruct (as_cstr (member url_key_ _)); [|reflexivity].
      destruct (is_size_t _); reflexivity.
    + unfold rejected.
      destruct (as_cstr (member url_key_ _)); [|exact Hidle].
      destruct (is_size_t _); exact Hidle.
    + intros srv Hsrv. eexists. split.
      * exact (emission_server _ _ (set_request_id id o) srv _ _ _ Hsrv).
      * exact (result_doc_tag None id status_fail_
                 (genMissingProperty key kind)).
Qed.

(** C5 (what the code does): the fields are checked in the order url,
    size, md5, restart; the first check that fails ends [handleCallback]
    with exactly one fail result built by [genMissingProperty] from the key
    of that field, and no session is created.  The key type handed over is
    the string type for url and md5, the bool type for restart, and for
    size, which is tested as an unsigned integer, again the string type. *)
Theorem validation_reports_first_bad_field http message o :
  as_bool (member update_command_key_ message) = true ->
  is_updating_ o = false ->
  let update_command := member update_command_key_ message in
  let o' := set_request_id (String_of_cstr (request_id_of message)) o in
  let fails key kind :=
    handle http message o
    = Done tt (rejected message o)
        (emitted o' status_fail_ (genMissingProperty key kind) None) in
  (as_cstr (member url_key_ update_command) = None -> fails "url" kString)
  /\ (as_cstr (member url_key_ update_command) <> None ->
      is_size_t (member image_size_key_ update_command) = false ->
      fails "size" kString)
  /\ (as_cstr (member url_key_ update_command) <> None ->
      is_size_t (member image_size_key_ update_command) = true ->
      as_cstr (member md5_hash_key_ update_command) = None ->
      fails "md5" kString)
  /\ (as_cstr (member url_key_ update_command) <> None ->
      is_size_t (member image_size_key_ update_command) = true ->
      as_cstr (member md5_hash_key_ update_command) <> None ->
      is_bool (member restart_key_ update_command) = false ->
      fails "restart" kBool)
  /\ is_updating_ (rejected message o) = false
  /\ task_enabled (rejected message o) = task_enabled o
  /\ buffer_ (rejected message o) = buffer_ o.
Proof.
  intros Hu Hidle update_command o' fails.
  assert (Hr : forall key kind,
             first_missing update_command = Some (key, kind) ->
             fails key kind).
  { intros key kind Hm.
    exact (handleCallback_rejects http message o key kind Hu Hidle Hm). }
  unfold first_missing in Hr.
  assert (Hframe : is_updating_ (rejected message o) = false
                   /\ task_enabled (rejected message o) = task_enabled o
                   /\ buffer_ (rejected message o) = buffer_ o).
  { unfold rejected. fold update_command.
    destruct (as_cstr (member url_key_ update_command));
      [destruct (is_size_t _)|]; repeat split; exact Hidle. }
  split; [|split; [|split; [|split]]]; try exact Hframe.
  - intros H1. apply Hr. rewrite H1. reflexivity.
  - intros H1 H2. apply Hr.
    destruct (as_cstr (member url_key_ update_command)); [|congruence].
    rewrite H2. reflexivity.
  - intros H1 H2 H3. apply Hr.
    destruct (as_cstr (member url_key_ update_command)); [|congruence].
    rewrite H2, H3. reflexivity.
  - intros H1 H2 H3 H4. apply Hr.
    destruct (as_cstr (member url_key_ update_command)); [|congruence].
    rewrite H2.
    destruct (as_cstr (member md5_hash_key_ update_command)); [|congruence].
    rewrite H4. reflexivity.
Qed.

(** C4 (what the code does): the whole url, not its scheme, is compared
    with "https".  Every other url, whatever its scheme, is opened without
    certificates and without consulting the server; only the url that is
    exactly "https" is opened with the server's root certificates (and
    aborts without result or session when there is no server). *)
Theorem transport_compares_whole_url http message url size md5 restart o :
  carries message url size md5 restart ->
  is_updating_ o = false ->
  let o' := accepted (request_id_of message) size restart o in
  (url <> "https" ->
   handle http message o
   = if begin_ok http then
       if get_code http =? 200 then
         Done tt (armed o')
           ([EvHttpBegin url None; EvHttpGET;
             EvUpdateSetMD5 md5; EvUpdateBegin size]
            ++ emitted o' status_start_ "" None)
       else
         Done tt o'
           ([EvHttpBegin url None; EvHttpGET]
            ++ emitted o' status_fail_
                 (ErrorResult_toString type
                    ("HTTP code: " ++ String_of_int (get_code http))) None)
     else
       Done tt o'
         ([EvHttpBegin url None]
          ++ emitted o' status_fail_ "Failed to connect" None))
  /\ (url = "https" ->
      match getServer (services_ o) with
      | Some server =>
          exists t,
            trace (handle http message o)
            = EvHttpBegin "https" (Some (getRootCas server)) :: t
      | None =>
          handle http message o
          = Done tt o'
              [EvSerialPrintln
                 (ErrorResult_toString type server_nullptr_error_)]
      end).
Proof.
  intros Hc Hidle o'. rewrite (handleCallback_valid _ _ _ _ _ _ _ Hc Hidle).
  fold o'. rewrite open_connection_run.
  change (services_ o') with (services_ o). split.
  - intros Hne. apply String.eqb_neq in Hne. rewrite Hne.
    destruct (begin_ok http); [|reflexivity].
    destruct (get_code http =? 200) eqn:E;
      change HTTP_CODE_OK with 200; rewrite E; reflexivity.
  - intros ->. rewrite String.eqb_refl.
    destruct (getServer (services_ o)) as [server|]; [|reflexivity].
    destruct (begin_ok http); [destruct (get_code http =? HTTP_CODE_OK)|];
      eexists; reflexivity.
Qed.

(** C8: for a directive that passes validation, a failed [client_.begin]
    is answered with exactly one fail result "Failed to connect", and a
    response code other than 200 with exactly one fail result whose detail
    is the error result built from "HTTP code: " followed by the code; in
    both cases [handleCallback] returns there: the buffer is untouched, the
    session is not marked active and the task is not enabled. *)
Theorem connection_failures_create_no_session
    http message url size md5 restart o :
  carries message url size md5 restart ->
  is_updating_ o = false ->
  (url = "https" -> getServer (services_ o) <> None) ->
  let o' := accepted (request_id_of message) size restart o in
  let opened :=
    [EvHttpBegin url
       (if String.eqb url "https"
        then option_map getRootCas (getServer (services_ o)) else None)] in
  (begin_ok http = false ->
   handle http message o
   = Done tt o' (opened ++ emitted o' status_fail_ "Failed to connect" None))
  /\ (begin_ok http = true -> get_code http <> 200 ->
      handle http message o
      = Done tt o'
          (opened ++ [EvHttpGET]
           ++ emitted o' status_fail_
                (ErrorResult_toString type
                   ("HTTP code: " ++ String_of_int (get_code http))) None))
  /\ buffer_ o' = buffer_ o
  /\ is_updating_ o' = false
  /\ task_enabled o' = task_enabled o
  /\ (forall srv status detail,
      getServer (services_ o) = Some srv ->
      emitted o' status detail None
      = [EvSendResults
           (result_doc None (String_of_cstr (request_id_of message))
              status detail)]).
Proof.
  intros Hc Hidle Hsrv o' opened.
  assert (Hopen : connect http url o' = Done (Some (begin_ok http)) o' opened).
  { rewrite open_connection_run. unfold opened.
    change (services_ o') with (services_ o).
    destruct (String.eqb url "https") eqn:E; [|reflexivity].
    apply String.eqb_eq in E.
    destruct (getServer (services_ o)); [reflexivity|].
    exfalso. apply (Hsrv E). reflexivity. }
  split; [|split; [|split; [|split; [|split]]]]; try reflexivity.
  - intros Hb. rewrite (handleCallback_valid _ _ _ _ _ _ _ Hc Hidle).
    fold o'. rewrite Hopen, Hb. reflexivity.
  - intros Hb Hcode. rewrite (handleCallback_valid _ _ _ _ _ _ _ Hc Hidle).
    fold o'. rewrite Hopen, Hb.
    apply Z.eqb_neq in Hcode. change HTTP_CODE_OK with 200. rewrite Hcode.
    reflexivity.
  - exact Hidle.
  - intros srv status detail H.
    exact (emission_server _ _ o' srv status detail None H).
Qed.

End Commands.

(** ** The discipline of the flashing driver over whole runs *)

Section Runs.

Variable genMissingProperty : string -> KeyType -> string.
Variable ErrorResult_toString : string -> string -> string.
Variable server_nullptr_error_ : string.

Local Abbreviation emitted :=
  (emission ErrorResult_toString server_nullptr_error_).
Local Abbreviation handle :=
  (handleCallback genMissingProperty ErrorResult_toString
     server_nullptr_error_).
Local Abbreviation tick :=
  (TaskCallback ErrorResult_toString server_nullptr_error_).
Local Abbreviation chunk_of :=
  (write_chunk ErrorResult_toString server_nullptr_error_).
Local Abbreviation finish :=
  (finish_update ErrorResult_toString server_nullptr_error_).
Local Abbreviation callback :=
  (Callback ErrorResult_toString server_nullptr_error_).
Local Abbreviation step_of :=
  (step genMissingProperty ErrorResult_toString server_nullptr_error_).
Local Abbreviation run_of :=
  (run genMissingProperty ErrorResult_toString server_nullptr_error_).

Lemma final_after {A} t (r : Result A) : final (after t r) = final r.
Proof. destruct r; reflexivity. Qed.

Lemma flash_run_emission p o status detail request_id :
  flash_run p (emitted o status detail request_id) = p.
Proof.
  unfold emission, sendResult. monad.
  destruct (getServer (services_ o)); destruct p; reflexivity.
Qed.

Lemma first_missing_none u :
  first_missing u = None ->
  exists url size md5 restart,
    member url_key_ u = JStr url
    /\ member image_size_key_ u = JInt size
    /\ 0 <= size <= SIZE_MAX
    /\ member md5_hash_key_ u = JStr md5
    /\ member restart_key_ u = JBool restart.
Proof.
  unfold first_missing.
  destruct (member url_key_ u) as [| | | |url| |]; try discriminate.
  cbn [as_cstr].
  destruct (member image_size_key_ u) as [| |size| | | |]; try discriminate.
  unfold is_size_t.
  destruct ((0 <=? size) && (size <=? SIZE_MAX)) eqn:E; try discriminate.
  apply andb_true_iff in E. destruct E as [E1 E2].
  apply Z.leb_le in E1, E2. cbn [negb].
  destruct (member md5_hash_key_ u) as [| | | |md5| |]; try discriminate.
  cbn [as_cstr].
  destruct (member restart_key_ u) as [|restart| | | | |]; try discriminate.
  intros _. exists url, size, md5, restart. repeat split; assumption.
Qed.

(** A command either leaves the driver and the scheduling of the task
    alone, or it has set the hash and begun the write session. *)
Lemma handleCallback_flash http message o ph :
  (flash_run (Some ph) (trace (handle http message o)) = Some ph
   /\ forall o', final (handle http message o) = Some o' ->
                task_enabled o' = task_enabled o)
  \/ flash_run (Some ph) (trace (handle http message o)) = Some Begun.
Proof.
  destruct (as_bool (member update_command_key_ message)) eqn:Hu.
  2:{ left. rewrite (handleCallback_irrelevant _ _ _ _ _ _ Hu).
      split; [reflexivity|]. intros o' E. injection E as <-. reflexivity. }
  destruct (is_updating_ o) eqn:Hb.
  { left. rewrite (handleCallback_busy _ _ _ _ _ _ Hu Hb). simpl.
    split; [apply flash_run_emission|].
    intros o' E. injection E as <-. reflexivity. }
  destruct (first_missing (member update_command_key_ message))
    as [[key kind]|] eqn:Hm.
  { left. rewrite (handleCallback_rejects _ _ _ _ _ _ _ _ Hu Hb Hm). simpl.
    split; [apply flash_run_emission|].
    intros o' E. injection E as <-. unfold rejected.
    destruct (as_cstr (member url_key_ _)); [|reflexivity].
    destruct (is_size_t _); reflexivity. }
  apply first_missing_none in Hm.
  destruct Hm as (url & size & md5 & restart & H1 & H2 & H3 & H4 & H5).
  assert (Hc : carries message url size md5 restart)
    by (repeat split; try assumption; apply H3).
  rewrite (handleCallback_valid _ _ _ _ _ _ _ _ _ _ Hc Hb).
  rewrite open_connection_run.
  set (o1 := accepted _ _ _ o).
  assert (He : task_enabled o1 = task_enabled o) by reflexivity.
  destruct (String.eqb url "https"); [destruct (getServer (services_ o1))|].
  - destruct (begin_ok http); [destruct (get_code http =? HTTP_CODE_OK)|].
    + right. simpl. apply flash_run_emission.
    + left. simpl. split; [apply flash_run_emission|].
      intros o' E. injection E as <-. exact He.
    + left. simpl. split; [apply flash_run_emission|].
      intros o' E. injection E as <-. exact He.
  - left. simpl. split; [reflexivity|].
    intros o' E. injection E as <-. exact He.
  - destruct (begin_ok http); [destruct (get_code http =? HTTP_CODE_OK)|].
    + right. simpl. apply flash_run_emission.
    + left. simpl. split; [apply flash_run_emission|].
      intros o' E. injection E as <-. exact He.
    + left. simpl. split; [apply flash_run_emission|].
      intros o' E. injection E as <-. exact He.
Qed.

Lemma write_chunk_flash env stream o :
  flash_run (Some Begun) (trace (chunk_of env stream o)) = Some Begun.
Proof.
  rewrite write_chunk_run, trace_after, flash_run_app.
  destruct (bytes_of stream o) as [|b bs]; [reflexivity|].
  rewrite report_progress_run.
  destruct (percent_of _ _); [|reflexivity].
  destruct (_ && _); [reflexivity|].
  destruct (reports _ _); [|reflexivity].
  cbn [trace]. rewrite flash_run_emission. reflexivity.
Qed.

Lemma TaskCallback_available_run env stream o :
  stream_ptr env = Some stream ->
  available stream <> 0 ->
  tick env o
  = match chunk_of env stream o with
    | Done _ o1 t1 => after t1 ((finish env ;; ret true) o1)
    | Restarted o1 t1 => Restarted o1 t1
    | Undefined t1 => Undefined t1
    end.
Proof.
  intros Hs Ha.
  destruct (chunk_of env stream o) as [[] o1 t1|o1 t1|t1] eqn:Hc.
  - exact (TaskCallback_available _ _ _ _ _ _ _ Hs Ha Hc).
  - unfold TaskCallback. rewrite Hs. apply Z.eqb_neq in Ha. rewrite Ha.
    cbn [negb]. monad. rewrite Hc. reflexivity.
  - unfold TaskCallback. rewrite Hs. apply Z.eqb_neq in Ha. rewrite Ha.
    cbn [negb]. monad. rewrite Hc. reflexivity.
Qed.

(** With a stream at hand the tick asks to be continued. *)
Lemma Callback_stream env stream o :
  stream_ptr env = Some stream ->
  callback env o
  = match tick env o with
    | Done _ o' t => Done tt o' t
    | Restarted o' t => Restarted o' t
    | Undefined t => Undefined t
    end.
Proof.
  intros Hs. unfold Callback, TaskCallback. rewrite Hs. monad.
  match goal with
  | |- context [match ?m o with _ => _ end] =>
      let r := fresh "r" in
      destruct (m o) as [[] ? ?|? ?|?]; rewrite ?app_nil_r; reflexivity
  end.
Qed.

(** A tick of a session in its writing phase keeps the driver's discipline;
    if it closes the driver's session it also deregisters the task. *)
Lemma Callback_flash env o :
  flash_run (Some Begun) (trace (callback env o)) = Some Begun
  \/ (flash_run (Some Begun) (trace (callback env o)) = Some Closed
      /\ forall o', final (callback env o) = Some o' ->
                   task_enabled o' = false).
Proof.
  destruct (stream_ptr env) as [stream|] eqn:Hs.
  2:{ left. rewrite (Callback_lost _ _ _ _ Hs), trace_after, flash_run_app.
      rewrite flash_run_emission, disable_run.
      destruct (restart_ o); reflexivity. }
  rewrite (Callback_stream _ _ _ Hs).
  destruct (Z.eq_dec (available stream) 0) as [Ha|Ha].
  { left. rewrite (TaskCallback_idle_stream _ _ _ _ _ Hs Ha). reflexivity. }
  rewrite (TaskCallback_available_run _ _ _ Hs Ha).
  pose proof (write_chunk_flash env stream o) as Hw.
  destruct (chunk_of env stream o) as [[] o1 t1|o1 t1|t1];
    cbn [trace] in Hw; try (left; exact Hw).
  rewrite then_true_run.
  destruct (is_finished env) eqn:Hf.
  - right. rewrite (finish_update_run _ _ _ _ Hf).
    destruct (end_success env); rewrite disable_run.
    + destruct (restart_ o1); cbn [after trace final].
      * split; [|discriminate].
        rewrite !flash_run_app, Hw, flash_run_emission. reflexivity.
      * split; [|intros o' E; injection E as <-; reflexivity].
        rewrite !flash_run_app, Hw, flash_run_emission. reflexivity.
    + cbn [restart_ set_restart after trace final].
      split; [|intros o' E; injection E as <-; reflexivity].
      rewrite !flash_run_app, Hw, flash_run_emission. reflexivity.
  - left. rewrite (finish_update_skip _ _ _ _ Hf). cbn [after trace].
    rewrite app_nil_r. exact Hw.
Qed.

Lemma step_in_step i o p :
  in_step o p ->
  flash_run p (trace (step_of i o)) <> None
  /\ forall o', final (step_of i o) = Some o' ->
               in_step o' (flash_run p (trace (step_of i o))).
Proof.
  intros (ph & -> & Hen). destruct i as [http message|env].
  - cbn [step].
    destruct (handleCallback_flash http message o ph) as [[Hp He]|Hp];
      rewrite Hp.
    + split; [discriminate|]. intros o' Hfin. exists ph. split; [reflexivity|].
      rewrite (He o' Hfin). exact Hen.
    + split; [discriminate|]. intros o' _. exists Begun.
      split; reflexivity.
  - unfold step. monad. destruct (task_enabled o) eqn:E.
    + rewrite (Hen eq_refl).
      assert (Hid : match callback env o with
                    | Done a o0 t' => Done a o0 ([] ++ t')
                    | Restarted o0 t' => Restarted o0 ([] ++ t')
                    | Undefined t' => Undefined ([] ++ t')
                    end = callback env o)
        by (destruct (callback env o); reflexivity).
      rewrite Hid.
      destruct (Callback_flash env o) as [Hp|[Hp Hd]]; rewrite Hp.
      * split; [discriminate|]. intros o' _. exists Begun.
        split; reflexivity.
      * split; [discriminate|]. intros o' Hfin. exists Closed.
        split; [reflexivity|]. rewrite (Hd o' Hfin). discriminate.
    + cbn [trace final flash_run fold_left]. split; [discriminate|].
      intros o' Hfin. injection Hfin as <-. exists ph.
      split; [reflexivity|]. rewrite E. discriminate.
Qed.

Lemma run_in_step inputs : forall o p,
  in_step o p -> flash_run p (trace (run_of inputs o)) <> None.
Proof.
  induction inputs as [|i rest IH]; intros o p Hin.
  - destruct Hin as (ph & -> & _). discriminate.
  - destruct (step_in_step i o p Hin) as [Hok Hnext].
    change (run_of (i :: rest) o)
      with (bind (step_of i) (fun _ => run_of rest) o).
    unfold bind.
    destruct (step_of i o) as [[] o' t|o' t|t]; cbn [trace final] in *.
    + rewrite trace_after, flash_run_app.
      apply IH. apply Hnext. reflexivity.
    + exact Hok.
    + exact Hok.
Qed.

(** C2: an accepted command sets the driver's expected hash, then begins
    the write session with the image size of the command, and writes
    nothing; over every run of the device from its idle state, each
    [Update.begin] comes after an [Update.setMD5] and each [Update.write]
    after both. *)
Theorem hash_set_before_write_session :
  (forall http message url size md5 restart o,
      carries message url size md5 restart ->
      is_updating_ o = false ->
      (url = "https" -> getServer (services_ o) <> None) ->
      begin_ok http = true ->
      get_code http = 200 ->
      let o' := accepted (request_id_of message) size restart o in
      handle http message o
      = Done tt (armed o')
          ([EvHttpBegin url
              (if String.eqb url "https"
               then option_map getRootCas (getServer (services_ o))
               else None);
            EvHttpGET; EvUpdateSetMD5 md5; EvUpdateBegin size]
           ++ emitted o' status_start_ "" None)
      /\ image_size_ (armed o') = size)
  /\ (forall services inputs,
      hash_then_begin_then_write (trace (run_of inputs (idle services)))).
Proof.
  split.
  - intros http message url size md5 restart o Hc Hidle Hsrv Hb Hcode o'.
    split; [|reflexivity].
    rewrite (handleCallback_valid _ _ _ _ _ _ _ _ _ _ Hc Hidle).
    fold o'. rewrite open_connection_run, Hb, Hcode.
    change (services_ o') with (services_ o).
    destruct (String.eqb url "https") eqn:E; [|reflexivity].
    apply String.eqb_eq in E.
    destruct (getServer (services_ o)); [reflexivity|].
    exfalso. apply (Hsrv E). reflexivity.
  - intros services inputs. apply run_in_step.
    exists Closed. split; [reflexivity|]. discriminate.
Qed.

End Runs.

(** ** The statements at sample inputs *)

Lemma sample_command_carries url size request_id :
  0 <= size <= SIZE_MAX ->
  carries (Sample.command url (JInt size) request_id) url size "abc123" true.
Proof. intros H. repeat split; apply H. Qed.

Lemma sample_size_in_range : 0 <= 1000 <= SIZE_MAX.
Proof. split; discriminate. Qed.

Lemma hash_set_before_write_session_witness :
  handleCallback Sample.genMissingProperty Sample.ErrorResult_toString
    Sample.server_nullptr_error_ Sample.ok
    (Sample.command "http://h/f" (JInt 1000) "r1") Sample.fresh
  = Done tt (armed (accepted (Some "r1") 1000 true Sample.fresh))
      [EvHttpBegin "http://h/f" None; EvHttpGET;
       EvUpdateSetMD5 "abc123"; EvUpdateBegin 1000;
       EvSendResults
         (JObject [("type", JStr "result"); ("requestId", JStr "r1");
                   ("update", JObject [("status", JStr "start")])])]
  /\ hash_then_begin_then_write
       (trace
          (run Sample.genMissingProperty Sample.ErrorResult_toString
             Sample.server_nullptr_error_
             [Tick (Sample.reading 4);
              Command Sample.ok
                (Sample.command "http://h/f" (JInt 1000) "r1");
              Tick (Sample.reading 4);
              Tick (Sample.completing 1000 true)]
             Sample.fresh)).
Proof.
  split.
  - refine (proj1 (proj1
      (hash_set_before_write_session
         Sample.genMissingProperty Sample.ErrorResult_toString
         Sample.server_nullptr_error_)
      Sample.ok (Sample.command "http://h/f" (JInt 1000) "r1")
      "http://h/f" 1000 "abc123" true Sample.fresh
      (sample_command_carries _ _ _ sample_size_in_range)
      eq_refl _ eq_refl eq_refl)).
    discriminate.
  - exact (proj2
      (hash_set_before_write_session
         Sample.genMissingProperty Sample.ErrorResult_toString
         Sample.server_nullptr_error_) Sample.services _).
Defined.

Lemma transport_compares_whole_url_witness :
  handleCallback Sample.genMissingProperty Sample.ErrorResult_toString
    Sample.server_nullptr_error_ Sample.ok
    (Sample.command "https://h/f" (JInt 1000) "r1") Sample.fresh
  = Done tt (armed (accepted (Some "r1") 1000 true Sample.fresh))
      [EvHttpBegin "https://h/f" None; EvHttpGET;
       EvUpdateSetMD5 "abc123"; EvUpdateBegin 1000;
       EvSendResults
         (JObject [("type", JStr "result"); ("requestId", JStr "r1");
                   ("update", JObject [("status", JStr "start")])])].
Proof.
  refine (proj1
    (transport_compares_whole_url
       Sample.genMissingProperty Sample.ErrorResult_toString
       Sample.server_nullptr_error_
       Sample.ok (Sample.command "https://h/f" (JInt 1000) "r1")
       "https://h/f" 1000 "abc123" true Sample.fresh
       (sample_command_carries _ _ _ sample_size_in_range) eq_refl) _).
  discriminate.
Defined.

Lemma validation_reports_first_bad_field_witness :
  handleCallback Sample.genMissingProperty Sample.ErrorResult_toString
    Sample.server_nullptr_error_ Sample.ok
    (Sample.command "http://h/f" (JStr "1000") "r1") Sample.fresh
  = Done tt (set_request_id "r1" Sample.fresh)
      [EvSendResults
         (JObject [("type", JStr "result"); ("requestId", JStr "r1");
                   ("update",
                    JObject [("status", JStr "fail");
                             ("detail",
                              JStr "Missing property: size (string)")])])].
Proof.
  refine (proj1 (proj2
    (validation_reports_first_bad_field
       Sample.genMissingProperty Sample.ErrorResult_toString
       Sample.server_nullptr_error_
       Sample.ok (Sample.command "http://h/f" (JStr "1000") "r1")
       Sample.fresh eq_refl eq_refl)) _ eq_refl).
  discriminate.
Defined.

(** C6, counterexample: the detail of the rejection is "OTA update already
    running", not "update already running"; and a command without request
    id is answered with a result tagged with the id of the active
    session. *)
Lemma busy_detail_and_tag_differ :
  results_of (trace
    (handleCallback Sample.genMissingProperty Sample.ErrorResult_toString
       Sample.server_nullptr_error_ Sample.ok
       (Sample.command "http://h/f" (JInt 1000) "r2")
       (Sample.session 1000 (-1) true)))
  = [result_doc (Some "r2") "r1" "fail" "OTA update already running"]
  /\ results_of (trace
       (handleCallback Sample.genMissingProperty Sample.ErrorResult_toString
          Sample.server_nullptr_error_ Sample.ok
          (Sample.command "http://h/f" (JInt 1000) "r2")
          (Sample.session 1000 (-1) true)))
     <> [result_doc (Some "r2") "r1" "fail" "update already running"]
  /\ results_of (trace
       (handleCallback Sample.genMissingProperty Sample.ErrorResult_toString
          Sample.server_nullptr_error_ Sample.ok
          Sample.anonymous_command (Sample.session 1000 (-1) true)))
     = [JObject [("type", JStr "result"); ("requestId", JStr "r1");
                 ("update",
                  JObject [("status", JStr "fail");
                           ("detail",
                            JStr "OTA update already running")])]].
Proof.
  split; [reflexivity|]. split; [|reflexivity].
  vm_compute. discriminate.
Qed.

Lemma busy_session_turns_command_down_witness :
  handleCallback Sample.genMissingProperty Sample.ErrorResult_toString
    Sample.server_nullptr_error_ Sample.ok
    (Sample.command "http://h/f" (JInt 1000) "r2")
    (Sample.session 1000 (-1) true)
  = Done tt (Sample.session 1000 (-1) true)
      [EvSendResults
         (JObject [("type", JStr "result"); ("requestId", JStr "r2");
                   ("update",
                    JObject [("status", JStr "fail");
                             ("detail",
                              JStr "OTA update already running")])])].
Proof.
  exact (proj1
    (busy_session_turns_command_down
       Sample.genMissingProperty Sample.ErrorResult_toString
       Sample.server_nullptr_error_
       Sample.ok (Sample.command "http://h/f" (JInt 1000) "r2")
       (Sample.session 1000 (-1) true) eq_refl eq_refl)).
Defined.

Lemma connection_failures_create_no_session_witness :
  handleCallback Sample.genMissingProperty Sample.ErrorResult_toString
    Sample.server_nullptr_error_ Sample.refused
    (Sample.command "http://h/f" (JInt 1000) "r1") Sample.fresh
  = Done tt (accepted (Some "r1") 1000 true Sample.fresh)
      [EvHttpBegin "http://h/f" None;
       EvSendResults
         (JObject [("type", JStr "result"); ("requestId", JStr "r1");
                   ("update",
                    JObject [("status", JStr "fail");
                             ("detail", JStr "Failed to connect")])])]
  /\ handleCallback Sample.genMissingProperty Sample.ErrorResult_toString
       Sample.server_nullptr_error_ Sample.not_found
       (Sample.command "http://h/f" (JInt 1000) "r1") Sample.fresh
     = Done tt (accepted (Some "r1") 1000 true Sample.fresh)
         [EvHttpBegin "http://h/f" None; EvHttpGET;
          EvSendResults
            (JObject [("type", JStr "result"); ("requestId", JStr "r1");
                      ("update",
                       JObject [("status", JStr "fail");
                                ("detail",
                                 JStr "OtaUpdater: HTTP code: 404")])])].
Proof.
  split.
  - refine (proj1
      (connection_failures_create_no_session
         Sample.genMissingProperty Sample.ErrorResult_toString
         Sample.server_nullptr_error_
         Sample.refused (Sample.command "http://h/f" (JInt 1000) "r1")
         "http://h/f" 1000 "abc123" true Sample.fresh
         (sample_command_carries _ _ _ sample_size_in_range) eq_refl _)
      eq_refl).
    discriminate.
  - refine (proj1 (proj2
      (connection_failures_create_no_session
         Sample.genMissingProperty Sample.ErrorResult_toString
         Sample.server_nullptr_error_
         Sample.not_found (Sample.command "http://h/f" (JInt 1000) "r1")
         "http://h/f" 1000 "abc123" true Sample.fresh
         (sample_command_carries _ _ _ sample_size_in_range) eq_refl _))
      eq_refl _).
    + discriminate.
    + discriminate.
Defined.

(** C10, counterexample: a malformed directive with request id "r2" that
    arrives during the session of "r1" does not overwrite the stored id. *)
Lemma active_session_keeps_request_id :
  as_bool (member update_command_key_
             (Sample.command "http://h/f" (JStr "1000") "r2")) = true
  /\ option_map request_id_
       (final
          (handleCallback Sample.genMissingProperty
             Sample.ErrorResult_toString Sample.server_nullptr_error_
             Sample.ok (Sample.command "http://h/f" (JStr "1000") "r2")
             (Sample.session 1000 (-1) true)))
     = Some "r1"
  /\ option_map request_id_
       (final
          (handleCallback Sample.genMissingProperty
             Sample.ErrorResult_toString Sample.server_nullptr_error_
             Sample.ok (Sample.command "http://h/f" (JStr "1000") "r2")
             (Sample.session 1000 (-1) true)))
     <> Some "r2".
Proof.
  split; [reflexivity|]. split; [reflexivity|].
  vm_compute. discriminate.
Qed.

Lemma request_id_recorded_before_validation_witness :
  handleCallback Sample.genMissingProperty Sample.ErrorResult_toString
    Sample.server_nullptr_error_ Sample.ok
    (Sample.command "http://h/f" (JStr "1000") "r2") Sample.fresh
  = Done tt (set_request_id "r2" Sample.fresh)
      [EvSendResults
         (JObject [("type", JStr "result"); ("requestId", JStr "r2");
                   ("update",
                    JObject [("status", JStr "fail");
                             ("detail",
                              JStr "Missing property: size (string)")])])]
  /\ request_id_ (set_request_id "r2" Sample.fresh) = "r2".
Proof.
  pose proof (proj2
    (request_id_recorded_before_validation
       Sample.genMissingProperty Sample.ErrorResult_toString
       Sample.server_nullptr_error_
       Sample.ok (Sample.command "http://h/f" (JStr "1000") "r2")
       Sample.fresh eq_refl) eq_refl "size" kString eq_refl) as H.
  split; [exact (proj1 H) | exact (proj1 (proj2 H))].
Defined.

(** ** Further properties of the update task *)

Section Outcomes.

Variable genMissingProperty : string -> KeyType -> string.
Variable ErrorResult_toString : string -> string -> string.
Variable server_nullptr_error_ : string.

Local Abbreviation emitted :=
  (emission ErrorResult_toString server_nullptr_error_).
Local Abbreviation send :=
  (sendResult ErrorResult_toString server_nullptr_error_).
Local Abbreviation handle :=
  (handleCallback genMissingProperty ErrorResult_toString
     server_nullptr_error_).
Local Abbreviation tick :=
  (TaskCallback ErrorResult_toString server_nullptr_error_).
Local Abbreviation chunk_of :=
  (write_chunk ErrorResult_toString server_nullptr_error_).
Local Abbreviation callback :=
  (Callback ErrorResult_toString server_nullptr_error_).
Local Abbreviation step_of :=
  (step genMissingProperty ErrorResult_toString server_nullptr_error_).
Local Abbreviation run_of :=
  (run genMissingProperty ErrorResult_toString server_nullptr_error_).
Local Abbreviation handled_as :=
  (handled genMissingProperty ErrorResult_toString server_nullptr_error_).
Local Abbreviation chunked_as :=
  (chunked ErrorResult_toString server_nullptr_error_).
Local Abbreviation ticked_as :=
  (ticked ErrorResult_toString server_nullptr_error_).

Lemma handleCallback_handled http message o :
  handled_as http message o (handle http message o).
Proof.
  destruct (as_bool (member update_command_key_ message)) eqn:Hu.
  2:{ rewrite (handleCallback_irrelevant _ _ _ _ _ _ Hu).
      apply handled_irrelevant. exact Hu. }
  destruct (is_updating_ o) eqn:Hb.
  { rewrite (handleCallback_busy _ _ _ _ _ _ Hu Hb).
    apply handled_busy; assumption. }
  destruct (first_missing (member update_command_key_ message))
    as [[key kind]|] eqn:Hm.
  { rewrite (handleCallback_rejects _ _ _ _ _ _ _ _ Hu Hb Hm).
    apply handled_rejected; assumption. }
  apply first_missing_none in Hm.
  destruct Hm as (url & size & md5 & restart & H1 & H2 & H3 & H4 & H5).
  assert (Hc : carries message url size md5 restart)
    by (repeat split; try assumption; apply H3).
  rewrite (handleCallback_valid _ _ _ _ _ _ _ _ _ _ Hc Hb).
  rewrite open_connection_run.
  set (o1 := accepted _ _ _ o).
  change (services_ o1) with (services_ o).
  destruct (String.eqb url "https") eqn:E.
  - apply String.eqb_eq in E.
    destruct (getServer (services_ o)) as [server|] eqn:Hs.
    + destruct (begin_ok http) eqn:Hbegin.
      * destruct (Z.eqb_spec (get_code http) HTTP_CODE_OK) as [Hcode|Hcode].
        -- exact (handled_armed _ _ _ _ _ _ url size md5 restart _
                    Hc Hb Hbegin Hcode).
        -- exact (handled_bad_code _ _ _ _ _ _ url size md5 restart _
                    Hc Hb Hbegin Hcode).
      * exact (handled_refused _ _ _ _ _ _ url size md5 restart _
                 Hc Hb Hbegin).
    + exact (handled_no_server _ _ _ _ _ _ url size md5 restart Hc Hb E Hs).
  - destruct (begin_ok http) eqn:Hbegin.
    + destruct (Z.eqb_spec (get_code http) HTTP_CODE_OK) as [Hcode|Hcode].
      * exact (handled_armed _ _ _ _ _ _ url size md5 restart _
                 Hc Hb Hbegin Hcode).
      * exact (handled_bad_code _ _ _ _ _ _ url size md5 restart _
                 Hc Hb Hbegin Hcode).
    + exact (handled_refused _ _ _ _ _ _ url size md5 restart _
               Hc Hb Hbegin).
Qed.

Lemma write_chunk_chunked env stream o :
  chunked_as env stream o (chunk_of env stream o).
Proof.
  rewrite write_chunk_run.
  destruct (bytes_of stream o) as [|b bs] eqn:Eb.
  - pose proof (chunked_empty ErrorResult_toString server_nullptr_error_
                  env stream o Eb) as H.
    exact H.
  - assert (Hne : bytes_of stream o <> []) by (rewrite Eb; discriminate).
    rewrite report_progress_run.
    change (image_size_ (filled stream o)) with (image_size_ o).
    change (last_percent_update (filled stream o))
      with (last_percent_update o).
    rewrite <- Eb.
    destruct (percent_of (progress env) (image_size_ o)) as [pc|] eqn:Hp.
    + destruct ((0 <=? last_percent_update o)
                && (Float32.INT_MAX <? last_percent_update o + 10)) eqn:Ho.
      * apply andb_true_iff in Ho. destruct Ho as [Ho1 Ho2].
        apply Z.leb_le in Ho1. apply Z.ltb_lt in Ho2.
        apply chunked_undefined; [exact Hne|]. right. split; assumption.
      * destruct (reports (last_percent_update o) pc) eqn:Hr.
        -- rewrite (emission_frame _ _ o (filled stream o)) by reflexivity.
           exact (chunked_report _ _ env stream o pc Hne Hp Hr).
        -- cbn [after]. rewrite app_nil_r.
           exact (chunked_silent _ _ env stream o pc Hne Hp Hr).
    + apply chunked_undefined; [exact Hne|]. left. exact Hp.
Qed.

Lemma Callback_ticked env o : ticked_as env o (callback env o).
Proof.
  destruct (stream_ptr env) as [stream|] eqn:Hs.
  2:{ rewrite (Callback_lost _ _ _ _ Hs), disable_run.
      destruct (restart_ o) eqn:Hr.
      - exact (ticked_lost_restart _ _ env o Hs Hr).
      - cbn [after]. rewrite app_nil_r.
        exact (ticked_lost _ _ env o Hs Hr). }
  rewrite (Callback_stream _ _ _ _ _ Hs).
  destruct (Z.eq_dec (available stream) 0) as [Ha|Ha].
  { rewrite (TaskCallback_idle_stream _ _ _ _ _ Hs Ha).
    exact (ticked_nothing _ _ env o stream Hs Ha). }
  pose proof (write_chunk_chunked env stream o) as Hc.
  destruct (chunk_of env stream o) as [[] o1 t1|o1 t1|t1] eqn:Hrun.
  - destruct (is_finished env) eqn:Hf.
    + rewrite (TaskCallback_complete _ _ _ _ _ _ _ Hs Ha Hf Hrun).
      destruct (end_success env) eqn:He; [destruct (restart_ o) eqn:Hr|].
      * exact (ticked_finish_restart _ _ env o stream o1 t1
                 Hs Ha Hc Hf He Hr).
      * exact (ticked_finish _ _ env o stream o1 t1 Hs Ha Hc Hf He Hr).
      * exact (ticked_failed _ _ env o stream o1 t1 Hs Ha Hc Hf He).
    + rewrite (TaskCallback_available _ _ _ _ _ _ _ Hs Ha Hrun).
      rewrite then_true_run, (finish_update_skip _ _ _ _ Hf).
      cbn [after]. rewrite app_nil_r.
      exact (ticked_continue _ _ env o stream o1 t1 Hs Ha Hc Hf).
  - inversion Hc.
  - rewrite (TaskCallback_available_run _ _ _ _ _ Hs Ha), Hrun.
    exact (ticked_undefined _ _ env o stream t1 Hs Ha Hc).
Qed.

Lemma emission_cases o status detail request_id :
  (exists srv,
      getServer (services_ o) = Some srv
      /\ emitted o status detail request_id
        = [EvSendResults
             (result_doc request_id (request_id_ o) status detail)])
  \/ (getServer (services_ o) = None
      /\ emitted o status detail request_id
        = [EvSerialPrintln
             (ErrorResult_toString type server_nullptr_error_)]).
Proof.
  destruct (getServer (services_ o)) as [srv|] eqn:E.
  - left. exists srv. split; [reflexivity|].
    exact (emission_server _ _ o srv status detail request_id E).
  - right. split; [reflexivity|].
    exact (emission_no_server _ _ o status detail request_id E).
Qed.

Lemma emission_command_events o status detail request_id :
  forallb command_event (emitted o status detail request_id) = true
  /\ (List.length (results_of (emitted o status detail request_id)) <= 1)%nat.
Proof.
  destruct (emission_cases o status detail request_id)
    as [(srv & _ & ->)|[_ ->]]; split; simpl; auto.
Qed.

Lemma results_of_app t1 t2 :
  results_of (t1 ++ t2) = results_of t1 ++ results_of t2.
Proof.
  induction t1 as [|e t1 IH]; [reflexivity|].
  destruct e; simpl; rewrite IH; reflexivity.
Qed.

Lemma handled_quiet http message o r :
  handled_as http message o r ->
  exists o' t,
    r = Done tt o' t
    /\ (List.length (results_of t) <= 1)%nat
    /\ forallb command_event t = true.
Proof.
  intros H. destruct H; eexists _, _;
    (split; [reflexivity|]);
    rewrite ?results_of_app, ?forallb_app, ?length_app;
    try (destruct (emission_command_events
                     (accepted (request_id_of message) size restart o)
                     status_fail_ failed_to_connect_error_ None)
           as [-> ?]);
    try (destruct (emission_command_events
                     (accepted (request_id_of message) size restart o)
                     status_start_ "" None) as [-> ?]);
    try (destruct (emission_command_events
                     (accepted (request_id_of message) size restart o)
                     status_fail_
                     (ErrorResult_toString type
                        (http_code_error_ ++ String_of_int (get_code http)))
                     None) as [-> ?]);
    try (destruct (emission_command_events o status_fail_
                     update_in_progress_error_ (request_id_of message))
           as [-> ?]);
    try (destruct (emission_command_events
                     (set_request_id
                        (String_of_cstr (request_id_of message)) o)
                     status_fail_ (genMissingProperty key kind) None)
           as [-> ?]);
    simpl; split; auto.
Qed.

(** X1: whatever the message, the reply of the connection and the state
    of the object, [handleCallback] returns; it puts at most one document
    on the result channel, and it never reads from the stream, writes to or
    finalises the flashing driver, closes the connection, pauses or
    restarts the device. *)
Theorem handleCallback_returns_quietly http message o :
  exists o' t,
    handle http message o = Done tt o' t
    /\ (List.length (results_of t) <= 1)%nat
    /\ forallb command_event t = true.
Proof.
  exact (handled_quiet http message o _
           (handleCallback_handled http message o)).
Qed.

(** X2: [sendResult] never changes the object.  With a server it sends
    exactly one document, and reading the document back gives the type
    "result", the status handed in, the detail handed in when that is not
    empty and no detail member otherwise, and as request id the parameter
    when it is not null, else the stored request id when that is not empty,
    else no member at all.  Without a server nothing is sent: the only
    effect is one line on the serial console. *)
Theorem sendResult_document status detail request_id o :
  exists t,
    send status detail request_id o = Done tt o t
    /\ match getServer (services_ o) with
       | Some _ =>
           exists doc,
             t = [EvSendResults doc]
             /\ member type_key_ doc = JStr "result"
             /\ status_of doc = Some status
             /\ detail_of doc
               = (if isEmpty detail then None else Some detail)
             /\ member request_id_key_ doc
               = match request_id with
                 | Some r => JStr r
                 | None =>
                     if isEmpty (request_id_ o) then JNull
                     else JStr (request_id_ o)
                 end
       | None =>
           t = [EvSerialPrintln
                  (ErrorResult_toString type server_nullptr_error_)]
       end.
Proof.
  exists (emitted o status detail request_id).
  split; [apply sendResult_run|].
  destruct (getServer (services_ o)) as [srv|] eqn:E.
  - exists (result_doc request_id (request_id_ o) status detail).
    split; [exact (emission_server _ _ o srv _ _ _ E)|].
    split; [reflexivity|].
    unfold status_of, detail_of. rewrite result_doc_update, result_doc_tag.
    repeat split. destruct (isEmpty detail); reflexivity.
  - exact (emission_no_server _ _ o _ _ _ E).
Qed.

(** The percentage of an image of size 0 is never defined. *)
Lemma percent_of_zero_size written : percent_of written 0 = None.
Proof.
  unfold percent_of, Float32.div, Float32.mul.
  change (Float32.of_Z 0) with (S754_zero false).
  change (Float32.of_Z 100) with (S754_finite false 13107200 (-17)).
  destruct (Float32.of_Z written) as [s|s| |s m e]; reflexivity.
Qed.

Lemma carries_first_missing message url size md5 restart :
  carries message url size md5 restart ->
  first_missing (member update_command_key_ message) = None.
Proof.
  intros (_ & Hurl & Hsize & Hrange & Hmd5 & Hrestart).
  unfold first_missing. rewrite Hurl, Hsize, Hmd5, Hrestart.
  unfold is_size_t. cbn [as_cstr is_bool].
  replace ((0 <=? size) && (size <=? SIZE_MAX)) with true
    by (symmetry; apply andb_true_iff; split; apply Z.leb_le; lia).
  reflexivity.
Qed.

(** X3: a directive whose size is 0 passes every check of the validation;
    in a session with image size 0, a tick that reads at least one byte
    divides by zero in the progress computation, and the conversion of the
    resulting NaN or infinity to [int] is undefined: the tick gets no
    further than the read and the write, whatever progress the driver
    reports. *)
Theorem zero_size_image_is_undefined env stream o :
  (forall message url md5 restart,
      carries message url 0 md5 restart ->
      first_missing (member update_command_key_ message) = None)
  /\ (stream_ptr env = Some stream ->
      available stream <> 0 ->
      bytes_of stream o <> [] ->
      image_size_ o = 0 ->
      tick env o
      = Undefined [EvReadBytes (bytes_of stream o);
                   EvUpdateWrite (bytes_of stream o)]).
Proof.
  split.
  - intros message url md5 restart Hc.
    exact (carries_first_missing _ _ _ _ _ Hc).
  - intros Hs Ha Hb Hz.
    rewrite (TaskCallback_available_run _ _ _ _ _ Hs Ha).
    pose proof (write_chunk_chunked env stream o) as Hc.
    destruct Hc as [He|Hne Hu|pc Hne Hp Hr|pc Hne Hp Hr].
    + contradiction.
    + reflexivity.
    + rewrite Hz, percent_of_zero_size in Hp. discriminate.
    + rewrite Hz, percent_of_zero_size in Hp. discriminate.
Qed.

(** X4: there is no timeout.  Ticks that find the connection open but no
    byte available change nothing and cause no event, however many of
    them follow one another. *)
Theorem stalled_stream_polls_forever envs o :
  Forall stalled envs ->
  run_of (map Tick envs) o = Done tt o [].
Proof.
  induction 1 as [|env envs (stream & Hs & Ha) _ IH]; [reflexivity|].
  change (run_of (map Tick (env :: envs)) o)
    with (bind (step_of (Tick env)) (fun _ => run_of (map Tick envs)) o).
  assert (Hstep : step_of (Tick env) o = Done tt o []).
  { unfold step. monad. destruct (task_enabled o); [|reflexivity].
    rewrite (Callback_stream _ _ _ _ _ Hs).
    rewrite (TaskCallback_idle_stream _ _ _ _ _ Hs Ha). reflexivity. }
  unfold bind. rewrite Hstep, IH. reflexivity.
Qed.

Lemma rejected_frame message o :
  is_updating_ (rejected message o) = is_updating_ o
  /\ task_enabled (rejected message o) = task_enabled o
  /\ buffer_ (rejected message o) = buffer_ o
  /\ restart_ (rejected message o) = restart_ o.
Proof.
  unfold rejected.
  destruct (as_cstr (member url_key_ _)); [destruct (is_size_t _)|];
    repeat split.
Qed.

Lemma chunked_frame env stream o o1 t1 :
  chunked_as env stream o (Done tt o1 t1) ->
  is_updating_ o1 = is_updating_ o
  /\ task_enabled o1 = task_enabled o
  /\ List.length (buffer_ o1) = List.length (buffer_ o)
  /\ restart_ o1 = restart_ o
  /\ image_size_ o1 = image_size_ o.
Proof.
  intros H. inversion H; subst; repeat split; apply filled_length.
Qed.

Lemma step_session_shape i o o' t :
  session_shape o ->
  step_of i o = Done tt o' t ->
  session_shape o'.
Proof.
  intros Hshape Hstep. destruct i as [http message|env].
  - cbn [step] in Hstep.
    pose proof (handleCallback_handled http message o) as Hh.
    rewrite Hstep in Hh.
    destruct (rejected_frame message o) as (R1 & R2 & R3 & _).
    destruct Hshape as [Hu Hlen].
    inversion Hh; subst; unfold session_shape;
      rewrite ?R1, ?R2, ?R3; try (split; assumption).
    split; [reflexivity|]. cbn [is_updating_ armed set_is_updating].
    apply vector_resize_length.
  - unfold step in Hstep. monad_in Hstep.
    destruct (task_enabled o) eqn:He.
    + assert (Hc : callback env o = Done tt o' t)
        by (destruct (callback env o); simpl in Hstep; congruence).
      pose proof (Callback_ticked env o) as Ht. rewrite Hc in Ht.
      inversion Ht; subst; try (split; reflexivity).
      * exact Hshape.
      * match goal with
        | Hch : chunked _ _ _ _ _ (Done tt _ _) |- _ =>
            destruct (chunked_frame _ _ _ _ _ Hch) as (F1 & F2 & F3 & _)
        end.
        destruct Hshape as [Hu Hlen].
        unfold session_shape. rewrite F1, F2, F3. split; assumption.
    + injection Hstep as <- <-. exact Hshape.
Qed.

(** X5: over every run of the device from its idle state, whenever the
    task has returned, a session is active exactly while the task is
    enabled, and the download buffer holds 4096 bytes while a session is
    active and is empty otherwise. *)
Theorem session_owns_the_buffer services inputs o t :
  run_of inputs (idle services) = Done tt o t ->
  session_shape o.
Proof.
  assert (Hgen : forall inputs o0 o1 t1,
             session_shape o0 ->
             run_of inputs o0 = Done tt o1 t1 -> session_shape o1).
  { clear. induction inputs as [|i rest IH]; intros o0 o1 t1 Hs Hrun.
    - injection Hrun as <- _. exact Hs.
    - change (run_of (i :: rest) o0)
        with (bind (step_of i) (fun _ => run_of rest) o0) in Hrun.
      unfold bind in Hrun.
      destruct (step_of i o0) as [[] o2 t2|o2 t2|t2] eqn:Hstep;
        try discriminate.
      destruct (run_of rest o2) as [[] o3 t3|o3 t3|t3] eqn:Hrest;
        try discriminate.
      injection Hrun as <- _.
      exact (IH _ _ _ (step_session_shape _ _ _ _ Hs Hstep) Hrest). }
  apply Hgen. split; reflexivity.
Qed.

Lemma writes_relay_reads_quiet limit t :
  (forall data, ~ In (EvUpdateWrite data) t) ->
  writes_relay_reads limit t.
Proof.
  intros H t1 data t2 E. exfalso. apply (H data). rewrite E.
  apply in_or_app. right. left. reflexivity.
Qed.

Lemma writes_relay_reads_app limit t t' :
  writes_relay_reads limit t ->
  writes_relay_reads limit t' ->
  writes_relay_reads limit (t ++ t').
Proof.
  intros Ht Ht' t1 data t2 E.
  apply app_eq_app in E. destruct E as (l & [[E1 E2]|[E1 E2]]).
  - destruct l as [|e l].
    + simpl in E2. destruct (Ht' [] data t2 (eq_sym E2)) as [_ (t0 & E0)].
      destruct t0; discriminate.
    + simpl in E2. injection E2 as <- E2.
      apply (Ht t1 data l). exact E1.
  - destruct (Ht' l data t2 E2) as [Hlen (t0 & E0)].
    split; [exact Hlen|]. exists (t ++ t0). rewrite E1, E0.
    apply app_assoc.
Qed.

Lemma writes_relay_reads_pair limit data :
  (List.length data <= limit)%nat ->
  writes_relay_reads limit [EvReadBytes data; EvUpdateWrite data].
Proof.
  intros Hlen t1 data' t2 E.
  destruct t1 as [|e1 [|e2 t1]]; simpl in E.
  - discriminate.
  - inversion E; subst.
    split; [exact Hlen|]. exists []. reflexivity.
  - inversion E as [[E1 E2 E3]]. destruct t1; discriminate.
Qed.

Lemma command_events_no_write t :
  forallb command_event t = true ->
  forall data, ~ In (EvUpdateWrite data) t.
Proof.
  intros H data Hin. rewrite forallb_forall in H.
  specialize (H _ Hin). discriminate.
Qed.

Lemma emission_no_write o status detail request_id data :
  ~ In (EvUpdateWrite data) (emitted o status detail request_id).
Proof.
  apply command_events_no_write.
  apply (emission_command_events o status detail request_id).
Qed.

Lemma bytes_of_length stream o :
  (List.length (bytes_of stream o) <= List.length (buffer_ o))%nat.
Proof. unfold bytes_of. apply firstn_le_length. Qed.

Lemma chunked_writes env stream o r :
  chunked_as env stream o r ->
  writes_relay_reads (List.length (buffer_ o)) (trace r).
Proof.
  intros H. pose proof (bytes_of_length stream o) as Hlen.
  destruct H as [He|Hne Hu|pc Hne Hp Hr|pc Hne Hp Hr]; cbn [trace].
  - apply writes_relay_reads_pair. simpl. lia.
  - apply writes_relay_reads_pair. exact Hlen.
  - apply writes_relay_reads_pair. exact Hlen.
  - apply writes_relay_reads_app.
    + apply writes_relay_reads_pair. exact Hlen.
    + apply writes_relay_reads_quiet. intros data.
      apply emission_no_write.
Qed.

Ltac no_write :=
  let data := fresh "data" in
  let Hin := fresh "Hin" in
  intros data Hin;
  repeat (apply in_app_or in Hin; destruct Hin as [Hin|Hin]);
  try (exact (emission_no_write _ _ _ _ _ Hin));
  simpl in Hin; intuition discriminate.

Lemma ticked_writes env o r :
  ticked_as env o r ->
  writes_relay_reads (List.length (buffer_ o)) (trace r).
Proof.
  intros H. destruct H; cbn [trace].
  - apply writes_relay_reads_quiet. no_write.
  - apply writes_relay_reads_quiet. no_write.
  - apply writes_relay_reads_quiet. no_write.
  - eapply (chunked_writes _ _ _ (Undefined t)). eassumption.
  - eapply (chunked_writes _ _ _ (Done tt o1 t1)). eassumption.
  - apply writes_relay_reads_app.
    + eapply (chunked_writes _ _ _ (Done tt o1 t1)). eassumption.
    + apply writes_relay_reads_quiet. no_write.
  - apply writes_relay_reads_app.
    + eapply (chunked_writes _ _ _ (Done tt o1 t1)). eassumption.
    + apply writes_relay_reads_quiet. no_write.
  - apply writes_relay_reads_app.
    + eapply (chunked_writes _ _ _ (Done tt o1 t1)). eassumption.
    + apply writes_relay_reads_quiet. no_write.
Qed.

Lemma step_writes i o :
  session_shape o ->
  writes_relay_reads 4096 (trace (step_of i o)).
Proof.
  intros Hshape. destruct i as [http message|env].
  - cbn [step].
    destruct (handled_quiet _ _ _ _ (handleCallback_handled http message o))
      as (o' & t & -> & _ & Hq).
    apply writes_relay_reads_quiet. apply command_events_no_write. exact Hq.
  - unfold step. monad. destruct (task_enabled o) eqn:He.
    + assert (Hid : match callback env o with
                    | Done a o0 t' => Done a o0 ([] ++ t')
                    | Restarted o0 t' => Restarted o0 ([] ++ t')
                    | Undefined t' => Undefined ([] ++ t')
                    end = callback env o)
        by (destruct (callback env o); reflexivity).
      rewrite Hid.
      destruct Hshape as [Hu Hlen]. rewrite He in Hu. rewrite Hu in Hlen.
      rewrite <- Hlen. apply (ticked_writes env). apply Callback_ticked.
    + apply writes_relay_reads_quiet. intros data [].
Qed.

(** X6: over every run of the device from its idle state, every call of
    [Update.write] hands over exactly the bytes of the [readBytes] call
    made just before it, and never more than the 4096 bytes of the
    buffer. *)
Theorem writes_fit_the_buffer services inputs :
  writes_relay_reads 4096 (trace (run_of inputs (idle services))).
Proof.
  assert (Hgen : forall inputs o,
             session_shape o ->
             writes_relay_reads 4096 (trace (run_of inputs o))).
  { clear. induction inputs as [|i rest IH]; intros o Hs.
    - apply writes_relay_reads_quiet. intros data [].
    - change (run_of (i :: rest) o)
        with (bind (step_of i) (fun _ => run_of rest) o).
      unfold bind. pose proof (step_writes i o Hs) as Hstep.
      destruct (step_of i o) as [[] o1 t1|o1 t1|t1] eqn:E;
        cbn [trace] in Hstep; try exact Hstep.
      rewrite trace_after. apply writes_relay_reads_app; [exact Hstep|].
      apply IH. exact (step_session_shape _ _ _ _ Hs E). }
  apply Hgen. split; reflexivity.
Qed.

Lemma step_restart_intent i o :
  restart_ o = false ->
  match step_of i o with
  | Done _ o' _ => restart_ o' = false \/ asks_restart i
  | Restarted _ _ => False
  | Undefined _ => True
  end.
Proof.
  intros Hr. destruct i as [http message|env].
  - cbn [step].
    pose proof (handleCallback_handled http message o) as Hh.
    destruct (rejected_frame message o) as (_ & _ & _ & R4).
    destruct Hh;
      try (left; first [exact Hr | rewrite R4; exact Hr]);
      match goal with
      | Hc : carries _ _ _ _ ?restart |- _ =>
          destruct restart;
          [ right; destruct Hc as (Hu & _ & _ & _ & _ & Hre);
            split; assumption
          | left; reflexivity ]
      end.
  - unfold step. monad. destruct (task_enabled o) eqn:He; [|left; exact Hr].
    assert (Hid : match callback env o with
                  | Done a o0 t' => Done a o0 ([] ++ t')
                  | Restarted o0 t' => Restarted o0 ([] ++ t')
                  | Undefined t' => Undefined ([] ++ t')
                  end = callback env o)
      by (destruct (callback env o); reflexivity).
    rewrite Hid.
    destruct (Callback_ticked env o);
      try congruence; try exact I; try (left; exact Hr);
      try (left; reflexivity);
      match goal with
      | Hch : chunked _ _ _ _ _ (Done tt _ _) |- _ =>
          destruct (chunked_frame _ _ _ _ _ Hch) as (_ & _ & _ & F4 & _);
          left; cbn [restart_ torn_down set_is_updating set_last_percent
                       set_request_id set_buffer set_enabled];
          congruence
      end.
Qed.

(** X7: the device restarts only on request.  If a run of the device from
    its idle state ends in a restart, one of the messages it received
    carried an update directive whose restart member is [true]. *)
Theorem restart_only_on_request services inputs o t :
  run_of inputs (idle services) = Restarted o t ->
  Exists asks_restart inputs.
Proof.
  assert (Hgen : forall inputs o0 o1 t1,
             restart_ o0 = false ->
             run_of inputs o0 = Restarted o1 t1 ->
             Exists asks_restart inputs).
  { clear. induction inputs as [|i rest IH]; intros o0 o1 t1 Hr Hrun.
    - discriminate.
    - change (run_of (i :: rest) o0)
        with (bind (step_of i) (fun _ => run_of rest) o0) in Hrun.
      unfold bind in Hrun. pose proof (step_restart_intent i o0 Hr) as Hs.
      destruct (step_of i o0) as [[] o2 t2|o2 t2|t2]; try contradiction.
      + destruct Hs as [Hs|Hs].
        * apply Exists_cons_tl.
          destruct (run_of rest o2) as [[] o3 t3|o3 t3|t3] eqn:Hrest;
            try discriminate.
          exact (IH _ _ _ Hs Hrest).
        * apply Exists_cons_hd. exact Hs.
      + discriminate. }
  exact (Hgen inputs (idle services) o t eq_refl).
Qed.

Lemma progress_results_app t1 t2 :
  progress_results (t1 ++ t2)
  = (progress_results t1 + progress_results t2)%nat.
Proof.
  unfold progress_results.
  rewrite results_of_app, filter_app, length_app. reflexivity.
Qed.

Lemma status_of_result_doc request_id stored status detail :
  status_of (result_doc request_id stored status detail) = Some status.
Proof. unfold status_of. rewrite result_doc_update. reflexivity. Qed.

Lemma progress_results_emission o status detail request_id :
  (progress_results (emitted o status detail request_id) <= 1)%nat
  /\ (String.eqb status status_updating_ = false ->
      progress_results (emitted o status detail request_id) = 0%nat).
Proof.
  destruct (emission_cases o status detail request_id)
    as [(srv & _ & ->)|[_ ->]].
  - unfold progress_results. cbn [results_of filter].
    unfold is_progress. rewrite status_of_result_doc.
    destruct (String.eqb status status_updating_); split; simpl;
      try lia; congruence.
  - unfold progress_results. simpl. split; [lia|reflexivity].
Qed.

Lemma budget_nonneg last : last <= 100 -> 0 <= budget last.
Proof.
  intros H. unfold budget. destruct (last <? 0); [lia|].
  apply Z.div_pos; lia.
Qed.

Lemma budget_report last percent :
  -1 <= last ->
  0 <= percent <= 100 ->
  reports last percent = true ->
  1 + budget percent <= budget last.
Proof.
  intros Hl Hp Hr. unfold reports in Hr. unfold budget.
  replace (percent <? 0) with false by (symmetry; apply Z.ltb_ge; lia).
  destruct (Z.ltb_spec last 0) as [Hneg|Hpos].
  - assert ((100 - percent) / 10 <= 100 / 10)
      by (apply Z.div_le_mono; lia).
    change (100 / 10) with 10 in *. lia.
  - simpl in Hr. apply Z.leb_le in Hr.
    replace (1 + (100 - percent) / 10) with ((100 - percent + 1 * 10) / 10)
      by (rewrite Z.div_add by lia; lia).
    apply Z.div_le_mono; lia.
Qed.

(** The reports of a chunk are paid for out of the budget. *)
Lemma chunked_budget env stream o r :
  chunked_as env stream o r ->
  -1 <= last_percent_update o <= 100 ->
  (forall percent,
      percent_of (progress env) (image_size_ o) = Some percent ->
      0 <= percent <= 100) ->
  match r with
  | Done _ o1 t1 =>
      Z.of_nat (progress_results t1) + budget (last_percent_update o1)
      <= budget (last_percent_update o)
      /\ -1 <= last_percent_update o1 <= 100
  | Restarted _ t1 | Undefined t1 => progress_results t1 = 0%nat
  end.
Proof.
  intros H Hl Hp.
  destruct H as [He|Hne Hu|pc Hne Hpc Hr|pc Hne Hpc Hr].
  - split; [|exact Hl]. change (progress_results _) with 0%nat.
    cbn [last_percent_update filled set_buffer]. lia.
  - reflexivity.
  - split; [|exact Hl]. change (progress_results _) with 0%nat.
    cbn [last_percent_update filled set_buffer]. lia.
  - specialize (Hp pc Hpc). split; [|cbn; lia].
    rewrite progress_results_app.
    change (progress_results [_; _]) with 0%nat.
    destruct (progress_results_emission o status_updating_
                ("{done:" ++ String_of_int pc ++ "%}") None) as [H1 _].
    pose proof (budget_report (last_percent_update o) pc
                  (proj1 Hl) Hp Hr) as Hb.
    cbn [last_percent_update set_last_percent]. lia.
Qed.

(** What a tick may still report: nothing when the task is disabled. *)
Lemma tick_budget env o :
  -1 <= last_percent_update o <= 100 ->
  (forall percent,
      percent_of (progress env) (image_size_ o) = Some percent ->
      0 <= percent <= 100) ->
  let left_of o' :=
    if task_enabled o' then budget (last_percent_update o') else 0 in
  match step_of (Tick env) o with
  | Done _ o1 t1 =>
      Z.of_nat (progress_results t1) + left_of o1 <= left_of o
      /\ -1 <= last_percent_update o1 <= 100
      /\ image_size_ o1 = image_size_ o
  | Restarted _ t1 | Undefined t1 =>
      Z.of_nat (progress_results t1) <= left_of o
  end.
Proof.
  intros Hl Hp left_of. unfold step. monad.
  pose proof (budget_nonneg _ (proj2 Hl)) as Hb.
  unfold left_of.
  destruct (task_enabled o) eqn:He.
  2:{ rewrite He. repeat split; try apply Hl. simpl. lia. }
  assert (Hid : match callback env o with
                | Done a o0 t' => Done a o0 ([] ++ t')
                | Restarted o0 t' => Restarted o0 ([] ++ t')
                | Undefined t' => Undefined ([] ++ t')
                end = callback env o)
    by (destruct (callback env o); reflexivity).
  rewrite Hid.
  assert (Hfail : forall o0 d,
             progress_results (emitted o0 status_fail_ d None) = 0%nat)
    by (intros o0 d; apply progress_results_emission; reflexivity).
  assert (Hfin : forall o0,
             progress_results (emitted o0 status_finish_ "" None) = 0%nat)
    by (intros o0; apply progress_results_emission; reflexivity).
  destruct (Callback_ticked env o);
    rewrite ?progress_results_app, ?Hfail, ?Hfin;
    try match goal with
        | Hch : chunked _ _ _ _ _ _ |- _ =>
            pose proof (chunked_budget _ _ _ _ Hch Hl Hp) as Hc;
            cbn iota beta in Hc;
            try (destruct (chunked_frame _ _ _ _ _ Hch)
                   as (_ & F2 & _ & _ & F5))
        end;
    cbn [task_enabled last_percent_update image_size_ torn_down
           set_is_updating set_last_percent set_request_id set_buffer
           set_enabled set_restart];
    change (progress_results [EvDelay 1500; EvRestart]) with 0%nat;
    change (progress_results [EvHttpEnd; EvUpdateEnd]) with 0%nat;
    change (progress_results []) with 0%nat;
    rewrite ?F2, ?He; repeat split; try lia; try apply Hl;
    try (destruct Hc as [Hc1 Hc2];
         pose proof (budget_nonneg _ (proj2 Hc2)); lia);
    try (rewrite Hc; simpl; lia); try assumption.
Qed.

(** X8: progress results are rationed.  In a session whose computed
    percentage stays within 0..100, ticks, however many and however small
    their reads, put at most eleven progress results on the result
    channel; after a report at [last] percent at most [(100 - last) / 10]
    more can follow. *)
Theorem progress_results_are_rationed envs o :
  -1 <= last_percent_update o <= 100 ->
  (forall env percent,
      In env envs ->
      percent_of (progress env) (image_size_ o) = Some percent ->
      0 <= percent <= 100) ->
  Z.of_nat (progress_results (trace (run_of (map Tick envs) o)))
  <= budget (last_percent_update o)
  /\ (progress_results (trace (run_of (map Tick envs) o)) <= 11)%nat.
Proof.
  intros Hl Hp.
  assert (Hgen : forall envs o,
             -1 <= last_percent_update o <= 100 ->
             (forall env percent,
                 In env envs ->
                 percent_of (progress env) (image_size_ o) = Some percent ->
                 0 <= percent <= 100) ->
             Z.of_nat (progress_results (trace (run_of (map Tick envs) o)))
             <= if task_enabled o then budget (last_percent_update o)
                else 0).
  { clear. induction envs as [|env envs IH]; intros o Hl Hp.
    - pose proof (budget_nonneg _ (proj2 Hl)).
      destruct (task_enabled o); simpl; lia.
    - change (run_of (map Tick (env :: envs)) o)
        with (bind (step_of (Tick env)) (fun _ => run_of (map Tick envs)) o).
      unfold bind.
      pose proof (tick_budget env o Hl
                    (fun pc => Hp env pc (or_introl eq_refl))) as Hs.
      cbn zeta in Hs.
      destruct (step_of (Tick env) o) as [[] o1 t1|o1 t1|t1];
        cbn [trace]; try exact Hs.
      destruct Hs as (Hs1 & Hs2 & Hs3).
      rewrite trace_after, progress_results_app.
      assert (Hrest := IH o1 Hs2).
      rewrite Hs3 in Hrest.
      specialize (Hrest (fun env' pc Hin => Hp env' pc (or_intror Hin))).
      lia. }
  pose proof (Hgen envs o Hl Hp) as H.
  pose proof (budget_nonneg _ (proj2 Hl)) as Hb.
  assert (Hmax : budget (last_percent_update o) <= 11).
  { unfold budget. destruct (last_percent_update o <? 0) eqn:E; [lia|].
    apply Z.ltb_ge in E.
    assert ((100 - last_percent_update o) / 10 <= 100 / 10)
      by (apply Z.div_le_mono; lia).
    change (100 / 10) with 10 in *. lia. }
  destruct (task_enabled o); split; lia.
Qed.

End Outcomes.

(** ** The peripheral factory *)

Section FactoryProperties.

Variable Peripheral : Type.
Variable InvalidPeripheral : string -> Peripheral.

Local Abbreviation Registry := (PeripheralFactory.Registry Peripheral).
Local Abbreviation register := (@PeripheralFactory.registerFactory Peripheral).
Local Abbreviation create :=
  (PeripheralFactory.createPeripheral Peripheral InvalidPeripheral).
Local Abbreviation names := (@PeripheralFactory.getFactoryNames Peripheral).

Lemma registerFactory_find name factory (factories : Registry) other :
  Factories.find other (snd (register name factory factories))
  = if String.eqb name other then
      match Factories.find name factories with
      | Some first => Some first
      | None => Some factory
      end
    else Factories.find other factories.
Proof.
  unfold PeripheralFactory.registerFactory, PeripheralFactory.emplace.
  rewrite FactoriesFacts.mem_find_b.
  destruct (String.eqb_spec name other) as [<-|Hne].
  - destruct (Factories.find name factories) as [first|] eqn:E; cbn.
    + exact E.
    + apply FactoriesFacts.add_eq_o. reflexivity.
  - destruct (Factories.find name factories) as [first|] eqn:E; cbn.
    + reflexivity.
    + apply FactoriesFacts.add_neq_o. exact Hne.
Qed.

(** X9: registration is first come, first served.  [registerFactory]
    answers [true] exactly when the name was free; the factory found under
    the name afterwards is the one that was there first, and the new one
    only when there was none; no other name is affected. *)
Theorem registration_is_first_come name factory (factories : Registry) :
  fst (register name factory factories)
  = negb (Factories.mem name factories)
  /\ Factories.find name (snd (register name factory factories))
    = match Factories.find name factories with
      | Some first => Some first
      | None => Some factory
      end
  /\ forall other,
      other <> name ->
      Factories.find other (snd (register name factory factories))
      = Factories.find other factories.
Proof.
  split; [|split].
  - unfold PeripheralFactory.registerFactory.
    destruct (Factories.mem name factories); reflexivity.
  - rewrite registerFactory_find, String.eqb_refl. reflexivity.
  - intros other Hne. rewrite registerFactory_find.
    destruct (String.eqb_spec name other); [congruence|reflexivity].
Qed.

(** X10: what is registered is what creates.  After a factory was
    registered under a free name, [createPeripheral] hands every parameter
    object whose type member is that name to that factory, and builds for
    every other parameter object what it built before. *)
Theorem registered_factory_creates name factory (factories : Registry) :
  Factories.mem name factories = false ->
  (forall parameter,
      as_cstr (member "type" parameter) = Some name ->
      create (snd (register name factory factories)) parameter
      = factory parameter)
  /\ (forall parameter,
      as_cstr (member "type" parameter) <> Some name ->
      create (snd (register name factory factories)) parameter
      = create factories parameter).
Proof.
  intros Hfree. rewrite FactoriesFacts.mem_find_b in Hfree.
  destruct (Factories.find name factories) eqn:E; [discriminate|].
  split; intros parameter Ht; unfold PeripheralFactory.createPeripheral;
    change PeripheralFactory.type_key_ with "type".
  - rewrite Ht, registerFactory_find, String.eqb_refl, E. reflexivity.
  - destruct (as_cstr (member "type" parameter)) as [other|] eqn:Eo;
      [|reflexivity].
    rewrite registerFactory_find.
    destruct (String.eqb_spec name other) as [e|_]; [|reflexivity].
    exfalso. apply Ht. rewrite e. reflexivity.
Qed.

(** X11: a name cannot be taken over.  Registering a second factory under
    a name that is already registered answers [false] and changes nothing
    that [createPeripheral] builds. *)
Theorem second_registration_is_ignored name first second
    (factories : Registry) parameter :
  let registered := snd (register name first factories) in
  fst (register name second registered) = false
  /\ create (snd (register name second registered)) parameter
    = create registered parameter.
Proof.
  intros registered.
  assert (Hmem : Factories.mem name registered = true).
  { rewrite FactoriesFacts.mem_find_b. unfold registered.
    rewrite registerFactory_find, String.eqb_refl.
    destruct (Factories.find name factories); reflexivity. }
  unfold PeripheralFactory.registerFactory at 1 2. rewrite Hmem.
  split; reflexivity.
Qed.

(** X12: parameters that name no registered type are never handed to a
    factory.  Without a string under "type" the result is the invalid
    peripheral with the error "Missing property: type (string)"; with a
    type that is not registered it is the invalid peripheral with the error
    "Unknown peripheral type: " followed by the type. *)
Theorem unregistered_type_is_invalid (factories : Registry) parameter :
  (forall name,
      as_cstr (member "type" parameter) = Some name ->
      Factories.mem name factories = false) ->
  create factories parameter
  = InvalidPeripheral
      match as_cstr (member "type" parameter) with
      | None => "Missing property: type (string)"
      | Some name => "Unknown peripheral type: " ++ name
      end.
Proof.
  intros H. unfold PeripheralFactory.createPeripheral.
  change PeripheralFactory.type_key_ with "type".
  destruct (as_cstr (member "type" parameter)) as [name|]; [|reflexivity].
  specialize (H name eq_refl). rewrite FactoriesFacts.mem_find_b in H.
  destruct (Factories.find name factories); [discriminate|reflexivity].
Qed.

Lemma names_in (factories : Registry) name :
  In name (names factories) <-> Factories.mem name factories = true.
Proof.
  rewrite <- FactoriesFacts.mem_in_iff, FactoriesFacts.elements_in_iff.
  unfold PeripheralFactory.getFactoryNames. rewrite in_map_iff. split.
  - intros ([k f] & Hk & Hin). simpl in Hk. subst k. exists f.
    apply SetoidList.In_InA; [|exact Hin].
    exact (Factories.Raw.PX.eqke_equiv _).
  - intros (f & Hin). apply SetoidList.InA_alt in Hin.
    destruct Hin as ([k f'] & [Hk Hf] & Hin). simpl in Hk, Hf. subst.
    exists (k, f'). split; [reflexivity|exact Hin].
Qed.

Lemma names_sorted (factories : Registry) :
  Sorted OrderedTypeEx.String_as_OT.lt (names factories).
Proof.
  unfold PeripheralFactory.getFactoryNames.
  pose proof (Factories.elements_3 factories) as Hs.
  induction Hs as [|[k f] l Hs IH Hhd]; [constructor|].
  simpl. constructor; [exact IH|].
  destruct Hhd as [|[k' f'] l' Hlt]; constructor. exact Hlt.
Qed.

(** X13: the names [getFactoryNames] lists are the registered names, each
    once, in ascending [strcmp] order; registering a name adds that name to
    the list and no other. *)
Theorem factory_names_are_the_registered_names (factories : Registry) :
  Sorted OrderedTypeEx.String_as_OT.lt (names factories)
  /\ NoDup (names factories)
  /\ (forall name,
      In name (names factories) <-> Factories.mem name factories = true)
  /\ (forall name factory listed,
      In listed (names (snd (register name factory factories)))
      <-> listed = name \/ In listed (names factories)).
Proof.
  split; [apply names_sorted|]. split; [|split; [apply names_in|]].
  - pose proof (names_sorted factories) as Hs.
    apply Sorted_StronglySorted in Hs.
    2:{ intros x y z. apply OrderedTypeEx.String_as_OT.lt_trans. }
    induction Hs as [|x l Hs IH Hall]; constructor; [|exact IH].
    intros Hin. rewrite Forall_forall in Hall. specialize (Hall x Hin).
    exact (OrderedTypeEx.String_as_OT.lt_not_eq Hall eq_refl).
  - intros name factory listed. rewrite !names_in.
    rewrite !FactoriesFacts.mem_find_b, registerFactory_find.
    destruct (String.eqb_spec name listed) as [<-|Hne].
    + destruct (Factories.find name factories); split; auto.
    + destruct (Factories.find listed factories); split; auto.
      intros [E|E]; [congruence|discriminate].
Qed.

End FactoryProperties.

(** ** The sketch *)

Section SketchProperties.

Variable ssid : string.

Local Abbreviation setup := (Sketch.setup ssid).
Local Abbreviation checkConnectivity := (Sketch.checkConnectivity ssid).

Lemma pump_levels_app calls1 calls2 :
  Sketch.pump_levels (calls1 ++ calls2)
  = Sketch.pump_levels calls1 ++ Sketch.pump_levels calls2.
Proof.
  induction calls1 as [|c calls1 IH]; [reflexivity|].
  destruct c; simpl; try exact IH.
  destruct (pin =? Sketch.pump_pin); simpl; rewrite IH; reflexivity.
Qed.

(** X14: [setup] either brings the board up or restarts it, nothing in
    between.  It returns only when WiFi, MQTT and the sensor initialisation
    all succeeded; it has then driven the pump pin HIGH once and registered
    exactly three timers: connectivity every 100 ms, the analog sensors
    every 1000 ms and the pump toggle every 30000 ms.  Otherwise it ends in
    [ESP.restart()] at the first failure: no timer is registered, the pump
    pin is never driven, and nothing that comes after the failed step is
    attempted. *)
Theorem setup_brings_up_or_restarts a g :
  match setup a g with
  | Sketch.Returns g' calls =>
      Sketch.wifi_connect a = true
      /\ Sketch.mqtt_connect a = true
      /\ Sketch.io_init a = true
      /\ Sketch.timers calls
         = [(100, Sketch.CheckConnectivity);
            (1000, Sketch.ReadAnalogSensors);
            (30000, Sketch.TogglePumpState)]
      /\ Sketch.pump_levels calls = [Sketch.HIGH]
      /\ Sketch.isPumpOn g' = Sketch.isPumpOn g
      /\ ~ In Sketch.EspRestart calls
  | Sketch.Restarts calls =>
      (Sketch.wifi_connect a = false
       \/ Sketch.mqtt_connect a = false
       \/ Sketch.io_init a = false)
      /\ Sketch.timers calls = []
      /\ Sketch.pump_levels calls = []
      /\ last calls Sketch.WifiConnect = Sketch.EspRestart
      /\ (Sketch.wifi_connect a = false ->
          ~ In Sketch.MqttConnect calls /\ ~ In Sketch.IoInit calls)
      /\ (Sketch.mqtt_connect a = false -> ~ In Sketch.IoInit calls)
  end.
Proof.
  unfold Sketch.setup.
  destruct (Sketch.wifi_connect a), (Sketch.mqtt_connect a),
    (Sketch.io_init a), (Sketch.timer_ids a) as [[id1 id2] id3];
    cbn; repeat split; auto; try discriminate; intuition discriminate.
Qed.

(** X15: [checkConnectivity] reconnects only what is down and restarts
    when a reconnect fails.  It returns, with [mqtt.receive()] as its last
    call, when WiFi and MQTT are each either connected or reconnected;
    [wifi.connect] and [mqtt.connect] are called exactly for a link that is
    down.  It ends in [ESP.restart()] without
    calling [mqtt.receive()] when a reconnect fails, and after a failed
    WiFi reconnect the MQTT client is not touched at all. *)
Theorem checkConnectivity_reconnects_or_restarts a :
  match checkConnectivity a with
  | Sketch.Returns _ calls =>
      (Sketch.wifi_isConnected a = true \/ Sketch.wifi_connect a = true)
      /\ (Sketch.mqtt_isConnected a = true \/ Sketch.mqtt_connect a = true)
      /\ last calls Sketch.WifiConnect = Sketch.MqttReceive
      /\ List.length (filter Sketch.touches_mqtt calls)
         = (if Sketch.mqtt_isConnected a then 2%nat else 3%nat)
      /\ (In Sketch.WifiConnect calls <-> Sketch.wifi_isConnected a = false)
      /\ (In Sketch.MqttConnect calls <-> Sketch.mqtt_isConnected a = false)
  | Sketch.Restarts calls =>
      last calls Sketch.WifiConnect = Sketch.EspRestart
      /\ ~ In Sketch.MqttReceive calls
      /\ ((Sketch.wifi_isConnected a = false
           /\ Sketch.wifi_connect a = false
           /\ filter Sketch.touches_mqtt calls = [])
          \/ (Sketch.mqtt_isConnected a = false
              /\ Sketch.mqtt_connect a = false))
  end.
Proof.
  unfold Sketch.checkConnectivity.
  destruct (Sketch.wifi_isConnected a), (Sketch.wifi_connect a),
    (Sketch.mqtt_isConnected a), (Sketch.mqtt_connect a);
    cbn; repeat split; auto; try discriminate;
    try (left; repeat split; reflexivity);
    try (right; repeat split; reflexivity);
    intuition discriminate.
Qed.

Lemma toggles_levels n : forall g,
  Sketch.isPumpOn (fst (Sketch.toggles n g))
  = xorb (Sketch.isPumpOn g) (Nat.odd n)
  /\ Sketch.pump_levels (snd (Sketch.toggles n g))
     = map (fun k => if xorb (Sketch.isPumpOn g) (Nat.odd k)
                     then Sketch.HIGH else Sketch.LOW)
         (seq 1 n).
Proof.
  induction n as [|n IH]; intros g.
  - cbn. rewrite xorb_false_r. split; reflexivity.
  - cbn [Sketch.toggles]. unfold Sketch.togglePumpState.
    assert (Hodd : forall k, Nat.odd (S k) = negb (Nat.odd k))
      by (intros k; rewrite Nat.odd_succ, <- Nat.negb_odd; reflexivity).
    destruct (Sketch.isPumpOn g) eqn:E;
      match goal with
      | |- context [Sketch.toggles n ?g'] =>
          destruct (IH g') as [IH1 IH2];
          destruct (Sketch.toggles n g') as [g'' rest]
      end;
      cbn [fst snd] in *; cbn [Sketch.isPumpOn] in IH1, IH2;
      (split;
       [ rewrite IH1, Hodd; destruct (Nat.odd n); reflexivity
       | rewrite pump_levels_app, IH2; cbn [seq map];
         rewrite <- (seq_shift n 1), map_map; cbn;
         f_equal; apply map_ext; intros k; rewrite Hodd;
         destruct (Nat.odd k); reflexivity ]).
Qed.

(** X16: the pump flag and the pump pin start out of step.  [setup]
    drives the pin HIGH while [isPumpOn] stays [false], so the first run of
    [togglePumpState] drives the pin HIGH again: after a [setup] that
    returned, the k-th toggle drives the pin HIGH when k is odd and LOW
    when k is even, and [isPumpOn] is [true] after an odd number of
    toggles. *)
Theorem first_toggle_repeats_the_level a g calls n :
  setup a Sketch.power_on = Sketch.Returns g calls ->
  Sketch.pump_levels (calls ++ snd (Sketch.toggles n g))
  = Sketch.HIGH
    :: map (fun k => if Nat.odd k then Sketch.HIGH else Sketch.LOW)
         (seq 1 n)
  /\ Sketch.isPumpOn (fst (Sketch.toggles n g)) = Nat.odd n.
Proof.
  intros Hsetup.
  pose proof (setup_ok := Hsetup).
  unfold Sketch.setup in setup_ok.
  destruct (Sketch.wifi_connect a); [|discriminate].
  destruct (Sketch.mqtt_connect a); [|discriminate].
  destruct (Sketch.io_init a); [|discriminate].
  destruct (Sketch.timer_ids a) as [[id1 id2] id3].
  cbn in setup_ok. injection setup_ok as <- <-.
  destruct (toggles_levels n (Sketch.mkGlobals false id1 id2 id3))
    as [H1 H2].
  split; [|exact H1].
  rewrite pump_levels_app, H2. reflexivity.
Qed.

End SketchProperties.

(** ** The further properties at sample inputs *)

Lemma session_owns_the_buffer_witness :
  session_shape
    (set_last_percent 52
       (filled (mkStream 4 Sample.chunk)
          (armed (accepted (Some "r1") 1000 true Sample.fresh)))).
Proof.
  refine (session_owns_the_buffer
            Sample.genMissingProperty Sample.ErrorResult_toString
            Sample.server_nullptr_error_ Sample.services Fixture.download
            _
            (trace
               (run Sample.genMissingProperty Sample.ErrorResult_toString
                  Sample.server_nullptr_error_ Fixture.download
                  (idle Sample.services)))
            _).
  vm_compute. reflexivity.
Defined.

Lemma restart_only_on_request_witness :
  Exists asks_restart Fixture.cut_off.
Proof.
  refine (restart_only_on_request
            Sample.genMissingProperty Sample.ErrorResult_toString
            Sample.server_nullptr_error_ Sample.services Fixture.cut_off
            (match
               run Sample.genMissingProperty Sample.ErrorResult_toString
                 Sample.server_nullptr_error_ Fixture.cut_off
                 (idle Sample.services)
             with
             | Restarted o _ => o
             | _ => idle Sample.services
             end)
            (trace
               (run Sample.genMissingProperty Sample.ErrorResult_toString
                  Sample.server_nullptr_error_ Fixture.cut_off
                  (idle Sample.services)))
            _).
  vm_compute. reflexivity.
Defined.

Lemma zero_size_image_is_undefined_witness :
  TaskCallback Sample.ErrorResult_toString Sample.server_nullptr_error_
    (Sample.reading 0) (Sample.session 0 (-1) false)
  = Undefined [EvReadBytes Sample.chunk; EvUpdateWrite Sample.chunk].
Proof.
  refine (proj2
    (zero_size_image_is_undefined
       Sample.ErrorResult_toString Sample.server_nullptr_error_
       (Sample.reading 0) (mkStream 4 Sample.chunk)
       (Sample.session 0 (-1) false)) eq_refl _ _ eq_refl).
  - discriminate.
  - discriminate.
Defined.

Lemma progress_results_are_rationed_witness :
  (progress_results
     (trace
        (run Sample.genMissingProperty Sample.ErrorResult_toString
           Sample.server_nullptr_error_
           (map Tick [Sample.reading 530; Sample.reading 600;
                      Sample.reading 620])
           (Sample.session 1000 (-1) false))) <= 11)%nat.
Proof.
  refine (proj2
    (progress_results_are_rationed
       Sample.genMissingProperty Sample.ErrorResult_toString
       Sample.server_nullptr_error_
       [Sample.reading 530; Sample.reading 600; Sample.reading 620]
       (Sample.session 1000 (-1) false) _ _)).
  - split; discriminate.
  - intros env percent [<-|[<-|[<-|[]]]] H; vm_compute in H;
      injection H as <-; split; discriminate.
Defined.

Lemma stalled_stream_polls_forever_witness :
  run Sample.genMissingProperty Sample.ErrorResult_toString
    Sample.server_nullptr_error_
    (map Tick [Fixture.waiting; Fixture.waiting; Fixture.waiting])
    (Sample.session 1000 52 true)
  = Done tt (Sample.session 1000 52 true) [].
Proof.
  apply (stalled_stream_polls_forever
           Sample.genMissingProperty Sample.ErrorResult_toString
           Sample.server_nullptr_error_).
  repeat constructor; exists (mkStream 0 []); split; reflexivity.
Defined.

Lemma registered_factory_creates_witness :
  PeripheralFactory.createPeripheral string Fixture.InvalidPeripheral
    (snd (PeripheralFactory.registerFactory string "led" Fixture.led
            (Factories.empty _)))
    Fixture.led_parameter
  = "led on D4".
Proof.
  exact (proj1
    (registered_factory_creates string Fixture.InvalidPeripheral
       "led" Fixture.led (Factories.empty _) eq_refl)
    Fixture.led_parameter eq_refl).
Defined.

Lemma unregistered_type_is_invalid_witness :
  PeripheralFactory.createPeripheral string Fixture.InvalidPeripheral
    (Factories.empty _) Fixture.led_parameter
  = "invalid: Unknown peripheral type: led".
Proof.
  apply (unregistered_type_is_invalid string Fixture.InvalidPeripheral
           (Factories.empty _) Fixture.led_parameter).
  intros name _. reflexivity.
Defined.

Lemma first_toggle_repeats_the_level_witness :
  Sketch.pump_levels
    (Sketch.calls_of (Sketch.setup "box" Fixture.healthy Sketch.power_on)
     ++ snd (Sketch.toggles 3 (Sketch.mkGlobals false 0 1 2)))
  = [Sketch.HIGH; Sketch.HIGH; Sketch.LOW; Sketch.HIGH].
Proof.
  exact (proj1
    (first_toggle_repeats_the_level "box" Fixture.healthy
       (Sketch.mkGlobals false 0 1 2) _ 3 eq_refl)).
Defined.
